(* Shallow embedding of the BARRY orchestration agent
   (src/mm_agents/BARRY: barry_agent.py, planning_expert.py,
   action_expert.py, reflection_expert.py, perception_expert.py, utils.py).

   The LLM oracle and the Omniparser perception backend are external: the
   oracle is a queue of response texts consumed by [chat.send_message], the
   backend a queue of outcomes consumed by [process_screenshot].  Python
   exceptions are modelled by a state-and-exception monad in which the
   mutations made before a raise are kept, as in Python. *)

From Stdlib Require Import String Ascii List ZArith Bool Lia.
Import ListNotations.
Open Scope string_scope.

(* ------------------------------------------------------------------ *)
(** * Python string helpers *)

Module PyStr.

(** [str.isspace] on ASCII characters: \t \n \v \f \r, the separators
    \x1c-\x1f and the space. *)
Definition is_space (c : ascii) : bool :=
  let n := nat_of_ascii c in
  ((9 <=? n) && (n <=? 13))%nat || ((28 <=? n) && (n <=? 32))%nat.

Fixpoint lstrip_l (l : list ascii) : list ascii :=
  match l with
  | [] => []
  | c :: r => if is_space c then lstrip_l r else l
  end.

(** [str.strip()] *)
Definition strip (s : string) : string :=
  string_of_list_ascii
    (rev (lstrip_l (rev (lstrip_l (list_ascii_of_string s))))).

(** [s.split(sep, 1)] when [sep] occurs in [s]: the text before and after
    the first occurrence; [None] when [sep] does not occur (Python then
    returns the one-element list [[s]]). *)
Fixpoint split_once (sep s : string) : option (string * string) :=
  if prefix sep s then Some (EmptyString, substring (String.length sep) (String.length s - String.length sep) s)
  else match s with
       | EmptyString => None
       | String c s' =>
           match split_once sep s' with
           | Some (a, b) => Some (String c a, b)
           | None => None
           end
       end.

(** [s.split(';')] *)
Fixpoint split_semi_acc (cur : string) (s : string) : list string :=
  match s with
  | EmptyString => [cur]
  | String c s' =>
      if Ascii.eqb c ";" then cur :: split_semi_acc EmptyString s'
      else split_semi_acc (cur ++ String c EmptyString) s'
  end.

Definition split_semi (s : string) : list string := split_semi_acc EmptyString s.

(** [[t.strip() for t in s.split(';') if t.strip()]] *)
Definition split_clean (s : string) : list string :=
  filter (fun t => negb (String.eqb t EmptyString)) (map strip (split_semi s)).

Definition lower_char (c : ascii) : ascii :=
  let n := nat_of_ascii c in
  if ((65 <=? n) && (n <=? 90))%nat then ascii_of_nat (n + 32) else c.

(** [str.lower()] on ASCII *)
Fixpoint lower (s : string) : string :=
  match s with
  | EmptyString => EmptyString
  | String c s' => String (lower_char c) (lower s')
  end.

(** line boundaries of [str.splitlines]: \n \v \f \r \x1c \x1d \x1e *)
Definition is_line_break (c : ascii) : bool :=
  let n := nat_of_ascii c in
  ((10 <=? n) && (n <=? 13))%nat || ((28 <=? n) && (n <=? 30))%nat.

Fixpoint splitlines_acc (cur : string) (s : string) : list string :=
  match s with
  | EmptyString => if String.eqb cur EmptyString then [] else [cur]
  | String c s' =>
      if is_line_break c then
        (* "\r\n" is a single boundary *)
        let s'' := match s' with
                   | String d t => if (Ascii.eqb c "013" && Ascii.eqb d "010")%char then t else s'
                   | EmptyString => s'
                   end in
        cur :: splitlines_acc EmptyString s''
      else splitlines_acc (cur ++ String c EmptyString) s'
  end.

(** [str.splitlines()] *)
Definition splitlines (s : string) : list string := splitlines_acc EmptyString s.

End PyStr.

Import PyStr.

(* ------------------------------------------------------------------ *)
(** * Exceptions, the oracle and the monad *)

Inductive exn :=
| ValueError
| IndexError
| KeyError
| TypeError
| AttributeError
| ConnectionError
| ApiError.

Inductive result (A : Type) :=
| Ok (a : A)
| Exc (e : exn).
Arguments Ok {A} a.
Arguments Exc {A} e.

(** [utils.parse_llm_response] *)
Definition parse_llm_response (response_text : string) : result string :=
  match split_once "RESPONSE:" response_text with
  | None => Exc ValueError
  | Some (_, after) => Ok (strip after)
  end.

(** A conversation entry of a [genai] chat session. *)
Inductive msg :=
| User (text : string)
| Model (text : string).

(** The value of [State["osworld_action"]]: the graph stores either a
    string ("" or "done") or the list returned by [process_instruction]. *)
Inductive os_action :=
| OAStr (s : string)
| OAList (l : list string).

(** [PlanningExpert] (planning_expert.py, __init__) *)
Record PlanningExpert := mkPlanning {
  p_chat : list msg;
  last_task_for_test : string;
  p_main_task : string;
  current_subtask : string;
  first_iter : bool }.

(** [ActionExpert] (action_expert.py, __init__) *)
Record ActionExpert := mkAction {
  a_chat : list msg;
  current_instruction : string }.

(** [ReflectionExpert] (reflection_expert.py, __init__); the index is a
    Python int. *)
Record ReflectionExpert := mkReflection {
  r_chat : list msg;
  instruction_list : list string;
  instruction_index : Z }.

(** [PerceptionExpert] (perception_expert.py, __init__) *)
Record PerceptionExpert := mkPerception {
  pe_screenshot : string;
  som_screenshot : string;
  som_description : string }.

(** The LangGraph [State] TypedDict of barry_agent.py. *)
Record GState := mkGState {
  reflection_action : string;
  reflection_planning : string;
  osworld_action : os_action;
  done : bool }.

(** [BarryAgent] (barry_agent.py, __init__).  [graph_state] is [None] for
    the initial empty dict [{}]. *)
Record Agent := mkAgent {
  trajectory_length : Z;
  max_trajectory_length : Z;
  call_user_count : Z;
  call_user_tolerance : Z;
  main_task : string;
  first_iteration : bool;
  action_expert : ActionExpert;
  planning_expert : PlanningExpert;
  reflection_expert : ReflectionExpert;
  perception_expert : PerceptionExpert;
  graph_state : option GState;
  screenshot : string;
  SOM_screenshot : string;
  SOM_description : string;
  sleep : bool }.

(** Observable calls to the external services, in order. *)
Inductive event :=
| EvOracle (who : string)
| EvPerception
| EvGraph.

(** The agent together with its environment: the oracle's pending
    responses, the perception backend's pending outcomes ([None] is a
    failed HTTP request) and the trace of calls made so far. *)
Record World := mkWorld {
  agent : Agent;
  oracle : list string;
  omni : list (option (string * string));
  trace : list event }.

Definition M (A : Type) : Type := World -> result A * World.

Definition ret {A} (a : A) : M A := fun w => (Ok a, w).
Definition bind {A B} (m : M A) (k : A -> M B) : M B :=
  fun w => match m w with
           | (Ok a, w') => k a w'
           | (Exc e, w') => (Exc e, w')
           end.
Definition throw {A} (e : exn) : M A := fun w => (Exc e, w).
Definition lift {A} (r : result A) : M A := fun w => (r, w).
(** [try: m except Exception: h] *)
Definition try_except {A} (m : M A) (h : exn -> M A) : M A :=
  fun w => match m w with
           | (Ok a, w') => (Ok a, w')
           | (Exc e, w') => h e w'
           end.

Notation "x <- m ;; k" := (bind m (fun x => k))
  (at level 61, m at next level, right associativity).
Notation "m ;;; k" := (bind m (fun _ => k))
  (at level 61, right associativity).

Definition get_agent : M Agent := fun w => (Ok (agent w), w).
Definition modify_agent (f : Agent -> Agent) : M unit :=
  fun w => (Ok tt, mkWorld (f (agent w)) (oracle w) (omni w) (trace w)).
Definition emit (ev : event) : M unit :=
  fun w => (Ok tt, mkWorld (agent w) (oracle w) (omni w) (trace w ++ [ev])).

(** Python list indexing [l[i]], negative indices included. *)
Definition py_index {A} (l : list A) (i : Z) : M A :=
  let n := Z.of_nat (List.length l) in
  let j := if (i <? 0)%Z then (n + i)%Z else i in
  if ((0 <=? j)%Z && (j <? n)%Z)%bool then
    match nth_error l (Z.to_nat j) with
    | Some x => ret x
    | None => throw IndexError
    end
  else throw IndexError.

(** A call [f(a1, ..., ak)] of a method taking [expected] arguments:
    Python raises TypeError before the body runs when the counts differ. *)
Definition py_call {A} (expected given : nat) (body : M A) : M A :=
  if Nat.eqb expected given then body else throw TypeError.

(* ------------------------------------------------------------------ *)
(** * Field updates *)

Definition with_action (f : ActionExpert -> ActionExpert) (a : Agent) : Agent :=
  mkAgent (trajectory_length a) (max_trajectory_length a) (call_user_count a)
    (call_user_tolerance a) (main_task a) (first_iteration a) (f (action_expert a))
    (planning_expert a) (reflection_expert a) (perception_expert a) (graph_state a)
    (screenshot a) (SOM_screenshot a) (SOM_description a) (sleep a).

Definition with_planning (f : PlanningExpert -> PlanningExpert) (a : Agent) : Agent :=
  mkAgent (trajectory_length a) (max_trajectory_length a) (call_user_count a)
    (call_user_tolerance a) (main_task a) (first_iteration a) (action_expert a)
    (f (planning_expert a)) (reflection_expert a) (perception_expert a) (graph_state a)
    (screenshot a) (SOM_screenshot a) (SOM_description a) (sleep a).

Definition with_reflection (f : ReflectionExpert -> ReflectionExpert) (a : Agent) : Agent :=
  mkAgent (trajectory_length a) (max_trajectory_length a) (call_user_count a)
    (call_user_tolerance a) (main_task a) (first_iteration a) (action_expert a)
    (planning_expert a) (f (reflection_expert a)) (perception_expert a) (graph_state a)
    (screenshot a) (SOM_screenshot a) (SOM_description a) (sleep a).

Definition with_perception (f : PerceptionExpert -> PerceptionExpert) (a : Agent) : Agent :=
  mkAgent (trajectory_length a) (max_trajectory_length a) (call_user_count a)
    (call_user_tolerance a) (main_task a) (first_iteration a) (action_expert a)
    (planning_expert a) (reflection_expert a) (f (perception_expert a)) (graph_state a)
    (screenshot a) (SOM_screenshot a) (SOM_description a) (sleep a).

Definition with_trajectory_length (n : Z) (a : Agent) : Agent :=
  mkAgent n (max_trajectory_length a) (call_user_count a)
    (call_user_tolerance a) (main_task a) (first_iteration a) (action_expert a)
    (planning_expert a) (reflection_expert a) (perception_expert a) (graph_state a)
    (screenshot a) (SOM_screenshot a) (SOM_description a) (sleep a).

Definition with_first_iteration (b : bool) (a : Agent) : Agent :=
  mkAgent (trajectory_length a) (max_trajectory_length a) (call_user_count a)
    (call_user_tolerance a) (main_task a) b (action_expert a)
    (planning_expert a) (reflection_expert a) (perception_expert a) (graph_state a)
    (screenshot a) (SOM_screenshot a) (SOM_description a) (sleep a).

Definition with_task_and_graph_state (t : string) (g : option GState) (a : Agent) : Agent :=
  mkAgent (trajectory_length a) (max_trajectory_length a) (call_user_count a)
    (call_user_tolerance a) t (first_iteration a) (action_expert a)
    (planning_expert a) (reflection_expert a) (perception_expert a) g
    (screenshot a) (SOM_screenshot a) (SOM_description a) (sleep a).

Definition with_graph_state (g : option GState) (a : Agent) : Agent :=
  with_task_and_graph_state (main_task a) g a.

Definition with_screens (s ss sd : string) (a : Agent) : Agent :=
  mkAgent (trajectory_length a) (max_trajectory_length a) (call_user_count a)
    (call_user_tolerance a) (main_task a) (first_iteration a) (action_expert a)
    (planning_expert a) (reflection_expert a) (perception_expert a) (graph_state a)
    s ss sd (sleep a).

Definition with_sleep (b : bool) (a : Agent) : Agent :=
  mkAgent (trajectory_length a) (max_trajectory_length a) (call_user_count a)
    (call_user_tolerance a) (main_task a) (first_iteration a) (action_expert a)
    (planning_expert a) (reflection_expert a) (perception_expert a) (graph_state a)
    (screenshot a) (SOM_screenshot a) (SOM_description a) b.

(** [self.reflection_action = ..., self.reflection_planning = ...] as a
    node's partial update of the graph state. *)
Definition upd_reflection (ra rp : string) (g : GState) : GState :=
  mkGState ra rp (osworld_action g) (done g).
Definition upd_osworld (o : os_action) (g : GState) : GState :=
  mkGState (reflection_action g) (reflection_planning g) o (done g).
Definition upd_done (g : GState) : GState :=
  mkGState (reflection_action g) (reflection_planning g) (osworld_action g) true.

(* ------------------------------------------------------------------ *)
(** * The oracle: [chat.send_message] *)

Inductive coord := CPlanning | CAction | CReflection.

Definition coord_name (c : coord) : string :=
  match c with
  | CPlanning => "planning_expert"
  | CAction => "action_expert"
  | CReflection => "reflection_expert"
  end.

Definition append_chat (c : coord) (ms : list msg) (a : Agent) : Agent :=
  match c with
  | CPlanning => with_planning (fun p =>
      mkPlanning (p_chat p ++ ms) (last_task_for_test p) (p_main_task p)
        (current_subtask p) (first_iter p)) a
  | CAction => with_action (fun x => mkAction (a_chat x ++ ms) (current_instruction x)) a
  | CReflection => with_reflection (fun r =>
      mkReflection (r_chat r ++ ms) (instruction_list r) (instruction_index r)) a
  end.

(** [self.chat.send_message(prompt).text]: the next oracle response;
    when the service gives no response the client raises. *)
Definition send_message (c : coord) (prompt : string) : M string :=
  fun w =>
    match oracle w with
    | [] => (Exc ApiError, w)
    | r :: rest =>
        (Ok r, mkWorld (append_chat c [User prompt; Model r] (agent w)) rest (omni w)
                 (trace w ++ [EvOracle (coord_name c)]))
    end.

(* ------------------------------------------------------------------ *)
(** * PlanningExpert (planning_expert.py) *)

Module Planning.

Definition set_main_task (t : string) : M unit :=
  modify_agent (with_planning (fun p =>
    mkPlanning (p_chat p) (last_task_for_test p) t (current_subtask p) (first_iter p))).

Definition set_subtasks (last first : string) : M unit :=
  modify_agent (with_planning (fun p =>
    mkPlanning (p_chat p) last (p_main_task p) first (first_iter p))).

Definition set_current_subtask (s : string) : M unit :=
  modify_agent (with_planning (fun p =>
    mkPlanning (p_chat p) (last_task_for_test p) (p_main_task p) s (first_iter p))).

(** [decompose_main_task(main_task, screenshot)] *)
Definition decompose_main_task (mt : string) : M string :=
  set_main_task mt ;;;
  r <- send_message CPlanning ("DECOMPOSE_MAIN_TASK_PROMPT_TEMPLATE: " ++ mt) ;;
  subtasks_raw_string <- lift (parse_llm_response r) ;;
  let subtask_list := split_clean subtasks_raw_string in
  first <- py_index subtask_list 0 ;;
  set_current_subtask first ;;;
  ret first.

(** [is_main_task_done(screenshot)]: returns
    [llm_response_text[0].lower() == 'yes'], the first character of the
    parsed response compared with the string "yes". *)
Definition is_main_task_done : M bool :=
  a <- get_agent ;;
  r <- send_message CPlanning
         ("IS_LAST_TASK_PROMPT_TEMPLATE: " ++ current_subtask (planning_expert a)) ;;
  llm_response_text <- lift (parse_llm_response r) ;;
  c <- py_index (list_ascii_of_string llm_response_text) 0 ;;
  ret (String.eqb (lower (String c EmptyString)) "yes").

(** [rethink_subtask_list(reflection_expert_feedback, screenshot)] *)
Definition rethink_subtask_list (feedback : string) : M string :=
  a <- get_agent ;;
  r <- send_message CPlanning
         ("RETHINK_SUBTASK_PROMPT_TEMPLATE: " ++ feedback ++ " / "
            ++ current_subtask (planning_expert a)) ;;
  subtask_list_str <- lift (parse_llm_response r) ;;
  let subtask_list := split_clean subtask_list_str in
  last <- py_index subtask_list (-1) ;;
  first <- py_index subtask_list 0 ;;
  set_subtasks last first ;;;
  ret first.

(** [decompose_subtask(screenshot)] *)
Definition decompose_subtask : M (list string) :=
  a <- get_agent ;;
  r <- send_message CPlanning
         ("DECOMPOSE_SUBTASK_PROMPT_TEMPLATE: " ++ current_subtask (planning_expert a)) ;;
  instruction_list_str <- lift (parse_llm_response r) ;;
  ret (split_clean instruction_list_str).

(** [_set_current_task_as_last()] *)
Definition set_current_task_as_last : M unit :=
  modify_agent (with_planning (fun p =>
    mkPlanning (p_chat p) (last_task_for_test p) (p_main_task p)
      (last_task_for_test p) (first_iter p))).

End Planning.

(* ------------------------------------------------------------------ *)
(** * ReflectionExpert (reflection_expert.py) *)

Module Reflection.

Definition set_list_index (l : list string) (i : Z) : M unit :=
  modify_agent (with_reflection (fun r => mkReflection (r_chat r) l i)).

(** [set_subtask_and_instructions(subtask, instruction_list)] *)
Definition set_subtask_and_instructions (subtask : string) (l : list string) : M unit :=
  modify_agent (append_chat CReflection
    [User ("This is the subtask: '" ++ subtask ++ "'")]) ;;;
  set_list_index l 0.

(** [create_new_instruction()] *)
Definition create_new_instruction : M string :=
  send_message CReflection
    "Taking into account the last evaluation, respond only with the next instruction. don't add any comments.".

(** [evaluate_execution(screenshot)] *)
Definition evaluate_execution : M bool :=
  a <- get_agent ;;
  let r := reflection_expert a in
  instr <- py_index (instruction_list r) (instruction_index r) ;;
  send_message CReflection ("FIRST_EVALUATE_EXECUTION_PROMPT: " ++ instr) ;;;
  send_message CReflection "SECOND_EVALUATE_EXECUTION_PROMPT" ;;;
  response <- send_message CReflection "THIRD_EVALUATE_EXECUTION_PROMPT" ;;
  final_response <- lift (parse_llm_response response) ;;
  ret (String.eqb (lower final_response) "yes").

(** [is_last_instruction()] *)
Definition is_last_instruction_of (r : ReflectionExpert) : bool :=
  Z.eqb (Z.of_nat (List.length (instruction_list r)) - 1) (instruction_index r).

Definition is_last_instruction : M bool :=
  a <- get_agent ;; ret (is_last_instruction_of (reflection_expert a)).

(** [get_next_instruction()] *)
Definition get_next_instruction : M string :=
  a <- get_agent ;;
  let r := reflection_expert a in
  set_list_index (instruction_list r) (instruction_index r + 1) ;;;
  py_index (instruction_list r) (instruction_index r + 1).

(** [evaluate_error(main_task, screenshot)] *)
Definition evaluate_error (main_task_arg : string) : M string :=
  a <- get_agent ;;
  let r := reflection_expert a in
  py_index (instruction_list r) (instruction_index r) ;;;
  response <- send_message CReflection ("EVALUATE_ERROR_PROMPT: " ++ main_task_arg) ;;
  lift (parse_llm_response response).

End Reflection.

(* ------------------------------------------------------------------ *)
(** * Screenshot arguments *)

(** A screenshot argument as Python sees it: the agent always holds a
    [str] (the base64 text stored by the perception expert, or "" before
    the first observation), while the docstrings of the experts ask for a
    PIL image, whose [size] is the pair (width, height). *)
Inductive pyshot :=
| ShotStr (s : string)
| ShotImage (width height : nat).

(** [screenshot.size]: a [str] has no attribute [size]. *)
Definition shot_size (s : pyshot) : M (nat * nat) :=
  match s with
  | ShotStr _ => throw AttributeError
  | ShotImage wd ht => ret (wd, ht)
  end.

(** [str(n)] on a non-negative int. *)
Fixpoint uint_to_string (u : Decimal.uint) : string :=
  match u with
  | Decimal.Nil => EmptyString
  | Decimal.D0 u' => "0" ++ uint_to_string u'
  | Decimal.D1 u' => "1" ++ uint_to_string u'
  | Decimal.D2 u' => "2" ++ uint_to_string u'
  | Decimal.D3 u' => "3" ++ uint_to_string u'
  | Decimal.D4 u' => "4" ++ uint_to_string u'
  | Decimal.D5 u' => "5" ++ uint_to_string u'
  | Decimal.D6 u' => "6" ++ uint_to_string u'
  | Decimal.D7 u' => "7" ++ uint_to_string u'
  | Decimal.D8 u' => "8" ++ uint_to_string u'
  | Decimal.D9 u' => "9" ++ uint_to_string u'
  end.

Definition nat_to_string (n : nat) : string := uint_to_string (Nat.to_uint n).

(* ------------------------------------------------------------------ *)
(** * ActionExpert (action_expert.py) *)

Module Action.

(** [_parse_subtask_response(response_text, marker)] *)
Definition parse_subtask_response (response_text marker : string) : list string :=
  if String.eqb response_text EmptyString then []
  else match split_once marker response_text with
       | None => []
       | Some (_, after) => split_clean (strip after)
       end.

(** [set_current_instruction(new_instruction)] *)
Definition set_current_instruction (s : string) : M unit :=
  modify_agent (with_action (fun x => mkAction (a_chat x) s)).

(** [process_instruction(screenshot, SOM_screenshot, SOM_description)]:
    three messages, then [width, height = screenshot.size], then two
    more, the last response parsed for its commands.  The images sent
    with the first two prompts are not recorded in the chat. *)
Definition process_instruction (shot : pyshot) (som_shot som_desc : string) : M (list string) :=
  a <- get_agent ;;
  send_message CAction ("PROMPT_STEP_1: " ++ current_instruction (action_expert a)) ;;;
  send_message CAction "PROMPT_STEP_2" ;;;
  send_message CAction ("PROMPT_STEP_3: " ++ som_desc) ;;;
  size <- shot_size shot ;;
  let (width, height) := size in
  send_message CAction ("PROMPT_STEP_4: " ++ nat_to_string width ++ "x" ++ nat_to_string height) ;;;
  response <- send_message CAction "PROMPT_STEP_5" ;;
  ret (parse_subtask_response response "RESPONSE:").

End Action.

(* ------------------------------------------------------------------ *)
(** * PerceptionExpert (perception_expert.py) *)

Module Perception.

(** [store_screenshot(screenshot)] (the base64 encoding of bytes is
    left abstract). *)
Definition store_screenshot (s : string) : M unit :=
  modify_agent (with_perception (fun p =>
    mkPerception s (som_screenshot p) (som_description p))).

(** [process_screenshot()]: one request to the Omniparser server; a failed
    request raises ConnectionError. *)
Definition process_screenshot : M unit :=
  fun w =>
    let w1 := mkWorld (agent w) (oracle w) (omni w) (trace w ++ [EvPerception]) in
    match omni w with
    | Some (img, desc) :: rest =>
        (Ok tt, mkWorld (with_perception (fun p => mkPerception (pe_screenshot p) img desc)
                           (agent w)) (oracle w) rest (trace w1))
    | None :: rest => (Exc ConnectionError, mkWorld (agent w) (oracle w) rest (trace w1))
    | [] => (Exc ConnectionError, w1)
    end.

(** [self.perception_expert.get_screenshot()]: [PerceptionExpert] in
    src/mm_agents/BARRY/perception_expert.py defines no [get_screenshot]
    (only [get_som_screenshot] and [get_som_description]), so the
    attribute lookup raises AttributeError. *)
Definition get_screenshot : M string := throw AttributeError.

Definition get_som_screenshot : M string :=
  a <- get_agent ;; ret (som_screenshot (perception_expert a)).

Definition get_som_description : M string :=
  a <- get_agent ;; ret (som_description (perception_expert a)).

End Perception.

(* ------------------------------------------------------------------ *)
(** * BarryAgent (barry_agent.py) *)

Module Barry.

Definition init_gstate : GState := mkGState "" "" (OAStr "") false.

(** [BarryAgent.__init__] *)
Definition init_agent : Agent :=
  mkAgent 0 25 0 3 "" true
    (mkAction [] "")
    (mkPlanning [] "" "" "" true)
    (mkReflection [] [] 0)
    (mkPerception "" "" "")
    None "" "" "" false.

(** [reset(runtime_logger)] *)
Definition reset (a : Agent) : Agent :=
  mkAgent 0 (max_trajectory_length a) 0
    (call_user_tolerance a) (main_task a) true (action_expert a)
    (planning_expert a) (reflection_expert a) (perception_expert a) (graph_state a)
    (screenshot a) (SOM_screenshot a) (SOM_description a) (sleep a).

(** Nodes return the partial update they make to the graph state. *)
Definition update := GState -> GState.

(** node [planning_expert] *)
Definition planning_node (st : GState) : M update :=
  a <- get_agent ;;
  sub <- (if first_iteration a then
            (* case 1 *)
            s <- Planning.decompose_main_task (main_task a) ;;
            modify_agent (with_first_iteration false) ;;;
            ret (Some s)
          else if String.eqb (reflection_planning st) "finish" then
            (* case 2 *)
            d <- Planning.is_main_task_done ;;
            if d then ret None
            else s <- Planning.rethink_subtask_list "" ;; ret (Some s)
          else
            (* case 3 *)
            s <- Planning.rethink_subtask_list (reflection_planning st) ;;
            ret (Some s)) ;;
  match sub with
  | None => ret upd_done
  | Some subtask =>
      instruction_list <- Planning.decompose_subtask ;;
      Reflection.set_subtask_and_instructions subtask instruction_list ;;;
      i0 <- py_index instruction_list 0 ;;
      Action.set_current_instruction i0 ;;;
      ret (fun g => g)
  end.

(** node [action_expert]: case 2 calls
    [process_instruction(self.screenshot, self.SOM_screenshot,
    self.SOM_description, feedback)], four arguments for a method that
    takes three. *)
Definition action_node (st : GState) : M update :=
  if done st then ret (upd_osworld (OAStr "done"))
  else
    a <- get_agent ;;
    action <- py_call 3 4 (Action.process_instruction (ShotStr (screenshot a))
                              (SOM_screenshot a) (SOM_description a)) ;;
    ret (upd_osworld (OAList action)).

(** node [reflection_expert]; it calls
    [evaluate_error(self.screenshot, self.main_task)]. *)
Definition reflection_node (st : GState) : M update :=
  successful <- Reflection.evaluate_execution ;;
  if successful then
    (* case 1 *)
    last <- Reflection.is_last_instruction ;;
    if last then ret (upd_reflection "" "finish")
    else
      next_instruction <- Reflection.get_next_instruction ;;
      Action.set_current_instruction next_instruction ;;;
      ret (upd_reflection "" "")
  else
    (* case 2 *)
    a <- get_agent ;;
    evaluated_error <- Reflection.evaluate_error (screenshot a) ;;
    if prefix "Minor:" evaluated_error then
      new_instruction <- Reflection.create_new_instruction ;;
      Action.set_current_instruction new_instruction ;;;
      ret (upd_reflection evaluated_error "")
    else ret (upd_reflection "" evaluated_error).

(** edges [planning_expert -> action_expert -> END] *)
Definition planning_then_action (st : GState) : M GState :=
  u <- planning_node st ;;
  let st1 := u st in
  u2 <- action_node st1 ;;
  ret (u2 st1).

(** [self.graph.invoke(state)]: [start_router] goes to the planning node
    on the first iteration and to the reflection node otherwise;
    [reflection_router] goes to the planning node when
    [reflection_planning] is not empty and to the action node otherwise. *)
Definition graph_invoke (st : GState) : M GState :=
  emit EvGraph ;;;
  a <- get_agent ;;
  if first_iteration a then planning_then_action st
  else
    u <- reflection_node st ;;
    let st1 := u st in
    if negb (String.eqb (reflection_planning st1) "") then planning_then_action st1
    else u2 <- action_node st1 ;; ret (u2 st1).

(** [_process_new_screenshot(obs)]; [obs] is [None] when the observation
    has no "screenshot" key (observation_type is "screenshot"). *)
Definition process_new_screenshot (obs : option string) : M unit :=
  match obs with
  | None => throw ValueError
  | Some s =>
      Perception.store_screenshot s ;;;
      Perception.process_screenshot ;;;
      shot <- Perception.get_screenshot ;;
      som <- Perception.get_som_screenshot ;;
      desc <- Perception.get_som_description ;;
      modify_agent (with_screens shot som desc)
  end.

Definition FAIL_EXC : string * list string :=
  ("FAIL: Exception occurred during prediction.", ["FAIL"]).

(** The body of [predict] after [_process_new_screenshot]. *)
Definition predict_after_perception (instruction : string) : M (string * list string) :=
  a <- get_agent ;;
  (if first_iteration a then
     modify_agent (with_task_and_graph_state instruction (Some init_gstate))
   else ret tt) ;;;
  a <- get_agent ;;
  if sleep a then
    modify_agent (with_sleep false) ;;;
    ret ("Task completed", ["time.sleep(1)"])
  else
    modify_agent (with_sleep true) ;;;
    (* graph_state is {} only before the first iteration set it *)
    gs <- (match graph_state a with Some g => ret g | None => throw KeyError end) ;;
    final_state <- graph_invoke gs ;;
    modify_agent (with_graph_state (Some final_state)) ;;;
    let o := osworld_action final_state in
    if (done final_state && match o with OAStr s => String.eqb s "done" | _ => false end)%bool
    then ret ("Task completed", ["DONE"])
    else match o with
         | OAStr s =>
             if String.eqb s "" then ret ("FAIL: No OSWorld action generated in this cycle.", ["FAIL"])
             else ret ("Next action determined",
                       app (filter (fun l => negb (String.eqb l "")) (splitlines (strip s)))
                         ["time.sleep(3)"])
         | OAList [] => ret ("FAIL: No OSWorld action generated in this cycle.", ["FAIL"])
         | OAList _ => throw AttributeError (* a list has no [strip] *)
         end.

(** The [try] block of [predict]. *)
Definition predict_body (instruction : string) (obs : option string) : M (string * list string) :=
  process_new_screenshot obs ;;;
  predict_after_perception instruction.

(** [predict(instruction, obs)] *)
Definition predict (instruction : string) (obs : option string) : M (string * list string) :=
  modify_agent (fun a => with_trajectory_length (trajectory_length a + 1) a) ;;;
  a <- get_agent ;;
  if (trajectory_length a >? max_trajectory_length a)%Z then
    ret ("Maximum trajectory length exceeded", ["FAIL"])
  else try_except (predict_body instruction obs) (fun _ => ret FAIL_EXC).

(** A sequence of [predict] calls. *)
Fixpoint run_predicts (calls : list (string * option string)) (w : World) : World :=
  match calls with
  | [] => w
  | (i, o) :: rest => run_predicts rest (snd (predict i o w))
  end.

End Barry.

(* ------------------------------------------------------------------ *)
(** * Notions used by the properties *)

(** The world right after [predict] increments the step counter. *)
Definition bumped (w : World) : World :=
  mkWorld (with_trajectory_length (trajectory_length (agent w) + 1) (agent w))
    (oracle w) (omni w) (trace w).

(** The instruction cursor is a valid index into the installed list. *)
Definition cursor_valid (r : ReflectionExpert) : Prop :=
  (0 <= instruction_index r < Z.of_nat (List.length (instruction_list r)))%Z.

(** The calls the orchestration makes on the reflection expert. *)
Inductive reflection_op :=
| OpSet (subtask : string) (l : list string)
| OpNext
| OpIsLast
| OpEvalExec
| OpEvalError (main_task_arg : string)
| OpCreate.

Definition run_op (op : reflection_op) : M unit :=
  match op with
  | OpSet s l => Reflection.set_subtask_and_instructions s l
  | OpNext => Reflection.get_next_instruction ;;; ret tt
  | OpIsLast => Reflection.is_last_instruction ;;; ret tt
  | OpEvalExec => Reflection.evaluate_execution ;;; ret tt
  | OpEvalError m => Reflection.evaluate_error m ;;; ret tt
  | OpCreate => Reflection.create_new_instruction ;;; ret tt
  end.

(** The documented preconditions: installed lists are those the planning
    node installs, and [get_next_instruction] is called only after
    [is_last_instruction()] returned false. *)
Definition op_pre (op : reflection_op) (w : World) : Prop :=
  match op with
  | OpSet _ l => l <> []
  | OpNext => Reflection.is_last_instruction_of (reflection_expert (agent w)) = false
  | _ => True
  end.

(** A run of calls, whatever each call returns or raises. *)
Fixpoint run_ops (ops : list reflection_op) (w : World) : World :=
  match ops with
  | [] => w
  | op :: rest => run_ops rest (snd (run_op op w))
  end.

Fixpoint ops_pre (ops : list reflection_op) (w : World) : Prop :=
  match ops with
  | [] => True
  | op :: rest => op_pre op w /\ ops_pre rest (snd (run_op op w))
  end.

(** The agent without the oracle conversation transcripts of its
    coordinators: the orchestration's own state. *)
Definition strip_chats (a : Agent) : Agent :=
  with_reflection (fun r => mkReflection [] (instruction_list r) (instruction_index r))
    (with_action (fun x => mkAction [] (current_instruction x))
      (with_planning (fun p => mkPlanning [] (last_task_for_test p) (p_main_task p)
                                 (current_subtask p) (first_iter p)) a)).

(** A mid-episode agent: the first subtask of "Open a text editor and
    type 'hello'" is installed with its single instruction. *)
Definition agent_mid : Agent :=
  mkAgent 7 25 0 3 "Open a text editor and type 'hello'" false
    (mkAction [User "PROMPT_STEP_5"; Model "RESPONSE: pyautogui.hotkey('ctrl', 'alt', 't')"]
       "Open the text editor")
    (mkPlanning [User "DECOMPOSE_SUBTASK_PROMPT_TEMPLATE: Open the text editor";
                 Model "RESPONSE: Open the text editor"]
       "" "Open a text editor and type 'hello'" "Open the text editor" true)
    (mkReflection [User "This is the subtask: 'Open the text editor'"]
       ["Open the text editor"] 0)
    (mkPerception "shot" "som" "desc")
    (Some Barry.init_gstate) "shot" "som" "desc" false.

(** The reflection expert's installed list and cursor. *)
Definition refl_li (w : World) : list string * Z :=
  (instruction_list (reflection_expert (agent w)),
   instruction_index (reflection_expert (agent w))).

(** A computation that leaves the installed list and cursor as they are,
    whether it returns or raises. *)
Definition keeps_li {A} (m : M A) : Prop :=
  forall w, refl_li (snd (m w)) = refl_li w.

(** The planning node in case 3 (a Major diagnosis), as the graph runs it
    from [agent_mid]; the oracle's decomposition has no non-blank item. *)
Definition major_state : GState :=
  mkGState "" "Major: the text editor did not open" (OAStr "") false.

Definition world_empty_decomposition : World :=
  mkWorld agent_mid ["RESPONSE: Open the text editor from the menu"; "RESPONSE: ;"] [] [].

(** One evaluation of [agent_mid]'s instruction that the oracle judges
    failed with a Minor diagnosis, and the patch it then proposes. *)
Definition minor_error : string := "Minor: the click missed the menu".

Definition minor_round : list string :=
  ["RESPONSE: The terminal did not open"; "RESPONSE: The screen is unchanged";
   "RESPONSE: no"; "RESPONSE: " ++ minor_error; "Open the text editor"].

(** Three such rounds in a row for the same instruction. *)
Definition world_minor_retry : World :=
  mkWorld agent_mid (minor_round ++ minor_round ++ minor_round) [] [].

(** The step state after a Minor diagnosis [minor_error]. *)
Definition minor_state : GState :=
  mkGState minor_error "" (OAStr "") false.

(** Three consecutive evaluations by the reflection node, each on the
    step state the previous one produced. *)
Definition three_evaluations (st : GState) : M (list GState) :=
  u1 <- Barry.reflection_node st ;;
  let s1 := u1 st in
  u2 <- Barry.reflection_node s1 ;;
  let s2 := u2 s1 in
  u3 <- Barry.reflection_node s2 ;;
  ret [s1; s2; u3 s2].

(** [agent_mid]'s single instruction, the last one of the last subtask,
    judged executed by the oracle, which then answers "yes" to whether the
    main task is done. The remaining answers serve the replanning that
    follows. *)
Definition world_task_finished : World :=
  mkWorld agent_mid
    ["RESPONSE: The terminal opened"; "RESPONSE: A terminal window is visible";
     "RESPONSE: yes"; "RESPONSE: yes"; "RESPONSE: Type 'hello'"; "RESPONSE: Type hello"]
    [Some ("shot", "som")] [].

(** A string without the separator ';'. *)
Fixpoint no_semi (s : string) : bool :=
  match s with
  | EmptyString => true
  | String c s' => negb (Ascii.eqb c ";") && no_semi s'
  end.

(** An item as [split_clean] produces it: not blank, already stripped. *)
Definition clean_item (t : string) : Prop := t <> EmptyString /\ strip t = t.

(** Every value a computation returns normally satisfies [P]. *)
Definition returns_only {A} (P : A -> Prop) (m : M A) : Prop :=
  forall w a, fst (m w) = Ok a -> P a.

(** The first graph run of an episode: the oracle splits the main task
    into two subtasks and the first subtask into two instructions. *)
Definition world_first_call : World :=
  mkWorld (with_first_iteration true agent_mid)
    ["RESPONSE: Open the text editor; Type hello";
     "RESPONSE: Click Applications; Click Text Editor"] [] [].

(* ================================================================== *)
(** * Properties *)

Module BarryFacts.
Import Barry.

(** The [try] block of [predict] always raises: either the observation
    has no screenshot, the perception request fails, or the call of the
    undefined [get_screenshot] does. *)
Lemma predict_body_raises (i : string) (o : option string) (w : World) :
  exists e, fst (predict_body i o w) = Exc e.
Proof.
  destruct o as [s|].
  - destruct (omni w) as [|[[img desc]|] rest] eqn:Hom;
      unfold predict_body, process_new_screenshot, Perception.store_screenshot,
        Perception.process_screenshot, modify_agent, bind; cbn; rewrite ?Hom;
      eexists; reflexivity.
  - eexists; reflexivity.
Qed.

Lemma predict_body_agent_counters (i : string) (o : option string) (w : World) :
  trajectory_length (agent (snd (predict_body i o w))) = trajectory_length (agent w) /\
  max_trajectory_length (agent (snd (predict_body i o w))) = max_trajectory_length (agent w).
Proof.
  destruct o as [s|].
  - destruct (omni w) as [|[[img desc]|] rest] eqn:Hom;
      unfold predict_body, process_new_screenshot, Perception.store_screenshot,
        Perception.process_screenshot, modify_agent, bind; cbn; rewrite ?Hom;
      cbn; split; reflexivity.
  - split; reflexivity.
Qed.

Lemma predict_unfold (i : string) (o : option string) (w : World) :
  predict i o w =
    (if (trajectory_length (agent w) + 1 >? max_trajectory_length (agent w))%Z then
       ret ("Maximum trajectory length exceeded", ["FAIL"])
     else try_except (predict_body i o) (fun _ => ret FAIL_EXC)) (bumped w).
Proof. reflexivity. Qed.

Lemma predict_counters (i : string) (o : option string) (w : World) :
  trajectory_length (agent (snd (predict i o w))) = (trajectory_length (agent w) + 1)%Z /\
  max_trajectory_length (agent (snd (predict i o w))) = max_trajectory_length (agent w).
Proof.
  rewrite predict_unfold.
  destruct (_ >? _)%Z; [split; reflexivity|].
  unfold try_except.
  pose proof (predict_body_agent_counters i o (bumped w)) as [H1 H2].
  destruct (predict_body i o (bumped w)) as [[r|e] w'] eqn:Hb; cbn in *;
    rewrite H1, H2; split; reflexivity.
Qed.

Lemma run_predicts_counters (calls : list (string * option string)) (w : World) :
  trajectory_length (agent (run_predicts calls w)) =
    (trajectory_length (agent w) + Z.of_nat (List.length calls))%Z /\
  max_trajectory_length (agent (run_predicts calls w)) = max_trajectory_length (agent w).
Proof.
  revert w; induction calls as [|[i o] rest IH]; intros w.
  - cbn. split; lia.
  - change (run_predicts ((i, o) :: rest) w) with (run_predicts rest (snd (predict i o w))).
    change (List.length ((i, o) :: rest)) with (S (List.length rest)).
    rewrite Nat2Z.inj_succ.
    destruct (IH (snd (predict i o w))) as [H1 H2].
    destruct (predict_counters i o w) as [H3 H4].
    rewrite H1, H2, H3, H4. split; lia.
Qed.

(** Past the budget check, [predict] answers with the exception sentinel
    on every input. *)
Lemma predict_past_budget_fails (i : string) (o : option string) (w : World) :
  (trajectory_length (agent w) + 1 <= max_trajectory_length (agent w))%Z ->
  fst (predict i o w) = Ok FAIL_EXC.
Proof.
  intros Hb. rewrite predict_unfold.
  replace (trajectory_length (agent w) + 1 >? max_trajectory_length (agent w))%Z with false
    by (symmetry; rewrite Z.gtb_ltb; apply Z.ltb_ge; lia).
  unfold try_except.
  destruct (predict_body_raises i o (bumped w)) as [e He].
  destruct (predict_body i o (bumped w)) as [[r|e'] w']; cbn in He; [discriminate|reflexivity].
Qed.

Lemma predict_never_done (i : string) (o : option string) (w : World) :
  fst (predict i o w) <> Ok ("Task completed", ["DONE"]).
Proof.
  destruct (Z_le_gt_dec (trajectory_length (agent w) + 1) (max_trajectory_length (agent w))) as [Hb|Hb].
  - rewrite (predict_past_budget_fails i o w Hb). discriminate.
  - rewrite predict_unfold.
    replace (trajectory_length (agent w) + 1 >? max_trajectory_length (agent w))%Z with true
      by (symmetry; rewrite Z.gtb_ltb; apply Z.ltb_lt; lia).
    discriminate.
Qed.

Lemma predict_never_next_action (i : string) (o : option string) (w : World) (cmds : list string) :
  fst (predict i o w) <> Ok ("Next action determined", cmds).
Proof.
  destruct (Z_le_gt_dec (trajectory_length (agent w) + 1) (max_trajectory_length (agent w))) as [Hb|Hb].
  - rewrite (predict_past_budget_fails i o w Hb). discriminate.
  - rewrite predict_unfold.
    replace (trajectory_length (agent w) + 1 >? max_trajectory_length (agent w))%Z with true
      by (symmetry; rewrite Z.gtb_ltb; apply Z.ltb_lt; lia).
    discriminate.
Qed.

End BarryFacts.

(* ------------------------------------------------------------------ *)
(** * Facts on the Python string and list helpers *)

Module PyFacts.

Lemma prefix_app (x y : string) : prefix x (x ++ y) = true.
Proof.
  induction x as [|c x IH]; cbn.
  - destruct y; reflexivity.
  - destruct (ascii_dec c c) as [_|n]; [exact IH|congruence].
Qed.

Lemma prefix_split (x s : string) : prefix x s = true -> exists y, s = x ++ y.
Proof.
  revert s; induction x as [|c x IH]; intros s H.
  - exists s. reflexivity.
  - destruct s as [|d s]; cbn in H; [discriminate|].
    destruct (ascii_dec c d) as [<-|n]; [|discriminate].
    destruct (IH s H) as [y ->]. exists y. reflexivity.
Qed.

Lemma substring_whole (y : string) : substring 0 (String.length y) y = y.
Proof.
  induction y as [|c y IH]; cbn; [reflexivity|]. rewrite IH. reflexivity.
Qed.

Lemma substring_after (x y : string) :
  substring (String.length x) (String.length (x ++ y) - String.length x) (x ++ y) = y.
Proof.
  induction x as [|c x IH]; cbn.
  - rewrite Nat.sub_0_r. apply substring_whole.
  - exact IH.
Qed.

Lemma prefix_rest (sep t : string) :
  prefix sep t = true ->
  t = "" ++ sep ++ substring (String.length sep) (String.length t - String.length sep) t.
Proof.
  intros Hp. destruct (prefix_split _ _ Hp) as [y ->].
  rewrite substring_after. reflexivity.
Qed.

Lemma split_once_unfold (sep s : string) :
  split_once sep s =
  if prefix sep s then Some (EmptyString, substring (String.length sep) (String.length s - String.length sep) s)
  else match s with
       | EmptyString => None
       | String c s' =>
           match split_once sep s' with
           | Some (a, b) => Some (String c a, b)
           | None => None
           end
       end.
Proof. destruct s; reflexivity. Qed.

(** [split_once] returns the text around an occurrence of [sep]. *)
Lemma split_once_some (sep s a b : string) :
  split_once sep s = Some (a, b) -> s = a ++ sep ++ b.
Proof.
  revert a b; induction s as [|c s IH]; intros a b H;
    rewrite split_once_unfold in H.
  - destruct (prefix sep "") eqn:Hp; [|discriminate].
    injection H as <- <-.
    destruct sep; [reflexivity|discriminate].
  - destruct (prefix sep (String c s)) eqn:Hp.
    + injection H as <- <-. exact (prefix_rest _ _ Hp).
    + destruct (split_once sep s) as [[a' b']|] eqn:Hs; [|discriminate].
      injection H as <- <-. rewrite (IH a' b' eq_refl). reflexivity.
Qed.

(** [split_once] finds every occurrence of [sep]. *)
Lemma split_once_found (sep pre post : string) :
  split_once sep (pre ++ sep ++ post) <> None.
Proof.
  induction pre as [|c pre IH]; cbn [append]; rewrite split_once_unfold.
  - rewrite prefix_app. discriminate.
  - destruct (prefix sep _); [discriminate|].
    destruct (split_once sep (pre ++ sep ++ post)) as [[a b]|]; [discriminate|].
    exfalso; apply IH; reflexivity.
Qed.

(** A response lacks the marker exactly when [split_once] finds none. *)
Lemma marker_absent (sep s : string) :
  (~ exists pre post, s = pre ++ sep ++ post) <-> split_once sep s = None.
Proof.
  split.
  - intros Hn. destruct (split_once sep s) as [[a b]|] eqn:Hs; [|reflexivity].
    exfalso. apply Hn. exists a, b. exact (split_once_some _ _ _ _ Hs).
  - intros Hs [pre [post ->]]. exact (split_once_found sep pre post Hs).
Qed.

Lemma py_index_in_range {A} (l : list A) (i : Z) :
  (0 <= i < Z.of_nat (List.length l))%Z ->
  exists x, nth_error l (Z.to_nat i) = Some x /\ forall w, py_index l i w = (Ok x, w).
Proof.
  intros Hi.
  destruct (nth_error l (Z.to_nat i)) as [x|] eqn:Hn.
  - exists x. split; [reflexivity|]. intros w. unfold py_index.
    replace (i <? 0)%Z with false by (symmetry; apply Z.ltb_ge; lia).
    replace ((0 <=? i)%Z && (i <? Z.of_nat (List.length l))%Z)%bool with true
      by (symmetry; apply andb_true_iff; split; [apply Z.leb_le|apply Z.ltb_lt]; lia).
    rewrite Hn. reflexivity.
  - exfalso. apply nth_error_None in Hn. lia.
Qed.

Lemma py_index_head {A} (x : A) (tl : list A) (w : World) :
  py_index (x :: tl) 0 w = (Ok x, w).
Proof. reflexivity. Qed.

Lemma py_index_last {A} (x : A) (tl : list A) :
  exists y, forall w, py_index (x :: tl) (-1) w = (Ok y, w).
Proof.
  destruct (py_index_in_range (x :: tl) (Z.of_nat (List.length (x :: tl)) - 1))
    as [y [_ Hy]]; [cbn [List.length]; lia|].
  exists y. intros w. rewrite <- (Hy w). unfold py_index.
  replace (-1 <? 0)%Z with true by reflexivity.
  replace (Z.of_nat (List.length (x :: tl)) - 1 <? 0)%Z with false
    by (symmetry; apply Z.ltb_ge; cbn [List.length]; lia).
  reflexivity.
Qed.

End PyFacts.

(* ------------------------------------------------------------------ *)
(** * The reflection expert's cursor *)

Module CursorFacts.

Lemma keeps_ret {A} (a : A) : keeps_li (ret a).
Proof. intros w; reflexivity. Qed.

Lemma keeps_throw {A} (e : exn) : keeps_li (@throw A e).
Proof. intros w; reflexivity. Qed.

Lemma keeps_lift {A} (r : result A) : keeps_li (lift r).
Proof. intros w; reflexivity. Qed.

Lemma keeps_get_agent : keeps_li get_agent.
Proof. intros w; reflexivity. Qed.

Lemma keeps_py_index {A} (l : list A) (i : Z) : keeps_li (py_index l i).
Proof.
  intros w. unfold py_index.
  destruct (_ && _)%bool; [destruct nth_error|]; reflexivity.
Qed.

Lemma keeps_send_message (c : coord) (p : string) : keeps_li (send_message c p).
Proof.
  intros w. unfold send_message.
  destruct (oracle w); [reflexivity|]. destruct c; reflexivity.
Qed.

Lemma keeps_bind {A B} (m : M A) (k : A -> M B) :
  keeps_li m -> (forall a, keeps_li (k a)) -> keeps_li (bind m k).
Proof.
  intros Hm Hk w. unfold bind.
  specialize (Hm w).
  destruct (m w) as [[a|e] w']; cbn in *; [rewrite Hk|]; exact Hm.
Qed.

Create HintDb keeps.
#[local] Hint Resolve keeps_ret keeps_throw keeps_lift keeps_get_agent keeps_py_index
  keeps_send_message keeps_bind : keeps.

Lemma keeps_evaluate_execution : keeps_li Reflection.evaluate_execution.
Proof.
  unfold Reflection.evaluate_execution.
  apply keeps_bind; [auto with keeps|intros a].
  repeat (apply keeps_bind; [auto with keeps|intros ?]). auto with keeps.
Qed.

Lemma keeps_evaluate_error (m : string) : keeps_li (Reflection.evaluate_error m).
Proof.
  unfold Reflection.evaluate_error.
  apply keeps_bind; [auto with keeps|intros a].
  repeat (apply keeps_bind; [auto with keeps|intros ?]). auto with keeps.
Qed.

Lemma keeps_create_new_instruction : keeps_li Reflection.create_new_instruction.
Proof. apply keeps_send_message. Qed.

Lemma keeps_is_last_instruction : keeps_li Reflection.is_last_instruction.
Proof. unfold Reflection.is_last_instruction. auto with keeps. Qed.

Lemma set_installs (s : string) (l : list string) (w : World) :
  refl_li (snd (run_op (OpSet s l) w)) = (l, 0%Z).
Proof. reflexivity. Qed.

Lemma next_advances (w : World) :
  refl_li (snd (run_op OpNext w)) =
    (fst (refl_li w), (snd (refl_li w) + 1)%Z).
Proof.
  unfold run_op, Reflection.get_next_instruction, bind, get_agent.
  cbn -[py_index].
  pose proof (keeps_py_index
    (instruction_list (reflection_expert (agent w)))
    (instruction_index (reflection_expert (agent w)) + 1)
    (mkWorld
       (with_reflection
          (fun r : ReflectionExpert =>
           mkReflection (r_chat r) (instruction_list (reflection_expert (agent w)))
             (instruction_index (reflection_expert (agent w)) + 1))
          (agent w)) (oracle w) (omni w) (trace w))) as H.
  destruct (py_index _ _ _) as [[x|e] w'] eqn:Hp; cbn in *; rewrite H; reflexivity.
Qed.

Lemma cursor_valid_li (w w' : World) :
  refl_li w' = refl_li w ->
  cursor_valid (reflection_expert (agent w)) -> cursor_valid (reflection_expert (agent w')).
Proof.
  unfold refl_li, cursor_valid. intros H. injection H as H1 H2.
  rewrite H1, H2. exact (fun x => x).
Qed.

Lemma cursor_valid_iff (w : World) :
  cursor_valid (reflection_expert (agent w)) <->
  (0 <= snd (refl_li w) < Z.of_nat (List.length (fst (refl_li w))))%Z.
Proof. reflexivity. Qed.

Lemma op_keeps_valid (op : reflection_op) (w : World) :
  op_pre op w ->
  cursor_valid (reflection_expert (agent w)) ->
  cursor_valid (reflection_expert (agent (snd (run_op op w)))).
Proof.
  intros Hpre Hv.
  destruct op as [s l| | | |m|]; cbn [op_pre] in Hpre.
  - unfold cursor_valid. cbn.
    destruct l; [contradiction|]. cbn [List.length]. lia.
  - rewrite cursor_valid_iff in *. rewrite next_advances.
    unfold Reflection.is_last_instruction_of in Hpre.
    apply Z.eqb_neq in Hpre. unfold refl_li in *. cbn [fst snd] in *. lia.
  - apply (cursor_valid_li w); [|exact Hv].
    apply keeps_bind; [apply keeps_is_last_instruction|auto with keeps].
  - apply (cursor_valid_li w); [|exact Hv].
    apply keeps_bind; [apply keeps_evaluate_execution|auto with keeps].
  - apply (cursor_valid_li w); [|exact Hv].
    apply keeps_bind; [apply keeps_evaluate_error|auto with keeps].
  - apply (cursor_valid_li w); [|exact Hv].
    apply keeps_bind; [apply keeps_create_new_instruction|auto with keeps].
Qed.

Lemma ops_keep_valid (ops : list reflection_op) (w : World) :
  cursor_valid (reflection_expert (agent w)) -> ops_pre ops w ->
  cursor_valid (reflection_expert (agent (run_ops ops w))).
Proof.
  revert w; induction ops as [|op rest IH]; intros w Hv Hpre; [exact Hv|].
  destruct Hpre as [H1 H2]. cbn [run_ops].
  apply IH; [apply op_keeps_valid|]; assumption.
Qed.

End CursorFacts.

(* ------------------------------------------------------------------ *)
(** * The reflection node on a failed execution *)

Module NodeFacts.
Import Barry.

Section FailedEvaluation.

Variables (st : GState) (w : World) (a1 a2 a3 a4 p v e : string) (rest : list string).
Hypothesis Hvalid : cursor_valid (reflection_expert (agent w)).
Hypothesis Horacle : oracle w = a1 :: a2 :: a3 :: a4 :: p :: rest.
Hypothesis Hverdict : parse_llm_response a3 = Ok v.
Hypothesis Hnotyes : String.eqb (lower v) "yes" = false.
Hypothesis Herror : parse_llm_response a4 = Ok e.

Lemma reflection_node_minor :
  prefix "Minor:" e = true ->
  fst (reflection_node st w) = Ok (upd_reflection e "") /\
  refl_li (snd (reflection_node st w)) = refl_li w /\
  current_instruction (action_expert (agent (snd (reflection_node st w)))) = p /\
  strip_chats (agent (snd (reflection_node st w))) =
    strip_chats (with_action (fun x => mkAction (a_chat x) p) (agent w)) /\
  oracle (snd (reflection_node st w)) = rest.
Proof.
  intros Hminor.
  destruct (PyFacts.py_index_in_range _ _ Hvalid) as [x [_ Hx]].
  unfold reflection_node, Reflection.evaluate_execution, Reflection.evaluate_error,
    Reflection.create_new_instruction, Action.set_current_instruction,
    bind, get_agent, lift, modify_agent.
  cbn -[py_index parse_llm_response prefix lower].
  rewrite Hx. cbn -[py_index parse_llm_response prefix lower].
  unfold send_message. rewrite Horacle. cbn -[py_index parse_llm_response prefix lower].
  rewrite Hverdict, Hnotyes. cbn -[py_index parse_llm_response prefix lower].
  rewrite Hx. cbn -[py_index parse_llm_response prefix lower].
  rewrite Herror, Hminor. cbn -[py_index parse_llm_response prefix lower].
  repeat split; reflexivity.
Qed.

Lemma reflection_node_major :
  prefix "Minor:" e = false ->
  fst (reflection_node st w) = Ok (upd_reflection "" e).
Proof.
  intros Hmajor.
  destruct (PyFacts.py_index_in_range _ _ Hvalid) as [x [_ Hx]].
  unfold reflection_node, Reflection.evaluate_execution, Reflection.evaluate_error,
    bind, get_agent, lift.
  cbn -[py_index parse_llm_response prefix lower].
  rewrite Hx. cbn -[py_index parse_llm_response prefix lower].
  unfold send_message. rewrite Horacle. cbn -[py_index parse_llm_response prefix lower].
  rewrite Hverdict, Hnotyes. cbn -[py_index parse_llm_response prefix lower].
  rewrite Hx. cbn -[py_index parse_llm_response prefix lower].
  rewrite Herror, Hmajor. reflexivity.
Qed.

End FailedEvaluation.

End NodeFacts.

(* ================================================================== *)
(** * The claims *)

Module Claims.
Import Barry BarryFacts.

(** C2: with the ceiling at 25, the 26th call of [predict] after [reset]
    returns ("Maximum trajectory length exceeded", ["FAIL"]) whatever the
    coordinators' state, and touches nothing but the step counter: no
    oracle response and no perception outcome is consumed and no call is
    traced (neither perception, nor a coordinator, nor the graph). *)
Theorem budget_exceeded_on_26th (w : World) (calls : list (string * option string))
  (i : string) (o : option string) :
  max_trajectory_length (agent w) = 25%Z ->
  List.length calls = 25%nat ->
  let w25 := run_predicts calls (mkWorld (reset (agent w)) (oracle w) (omni w) (trace w)) in
  predict i o w25 = (Ok ("Maximum trajectory length exceeded", ["FAIL"]), bumped w25).
Proof.
  intros Hmax Hlen w25.
  destruct (run_predicts_counters calls
              (mkWorld (reset (agent w)) (oracle w) (omni w) (trace w))) as [H1 H2].
  fold w25 in H1, H2. cbn in H1, H2.
  rewrite Hlen in H1. rewrite Hmax in H2.
  rewrite predict_unfold, H1, H2. reflexivity.
Qed.

Lemma budget_exceeded_on_26th_witness :
  let w := mkWorld init_agent [] [] [] in
  let calls := repeat ("Open a text editor", Some "shot") 25 in
  max_trajectory_length (agent w) = 25%Z /\ List.length calls = 25%nat /\
  predict "Open a text editor" (Some "shot") (run_predicts calls
      (mkWorld (reset (agent w)) (oracle w) (omni w) (trace w))) =
    (Ok ("Maximum trajectory length exceeded", ["FAIL"]),
     bumped (run_predicts calls (mkWorld (reset (agent w)) (oracle w) (omni w) (trace w)))).
Proof.
  intros w calls.
  split; [reflexivity|]. split; [reflexivity|].
  exact (budget_exceeded_on_26th w calls "Open a text editor" (Some "shot")
           eq_refl eq_refl).
Defined.

(** C10: [predict] never raises; once the budget check passes, whatever
    exception its [try] block raises is caught and the call returns
    ("FAIL: Exception occurred during prediction.", ["FAIL"]). *)
Theorem predict_catches_every_exception (i : string) (o : option string) (w : World) :
  (forall e, fst (predict i o w) <> Exc e) /\
  ((trajectory_length (agent w) + 1 <= max_trajectory_length (agent w))%Z ->
   forall e w', predict_body i o (bumped w) = (Exc e, w') ->
   predict i o w = (Ok FAIL_EXC, w')).
Proof.
  split.
  - intros e. rewrite predict_unfold.
    destruct (_ >? _)%Z; cbn; [discriminate|].
    unfold try_except.
    destruct (predict_body i o (bumped w)) as [[r|e'] w']; cbn; discriminate.
  - intros Hb e w' Hexc. rewrite predict_unfold.
    replace (trajectory_length (agent w) + 1 >? max_trajectory_length (agent w))%Z with false
      by (symmetry; rewrite Z.gtb_ltb; apply Z.ltb_ge; lia).
    unfold try_except. rewrite Hexc. reflexivity.
Qed.

Lemma predict_catches_every_exception_witness :
  let w := mkWorld agent_mid [] [None] [] in
  (trajectory_length (agent w) + 1 <= max_trajectory_length (agent w))%Z /\
  predict "Open a text editor" (Some "shot") w =
    (Ok FAIL_EXC, snd (predict_body "Open a text editor" (Some "shot") (bumped w))).
Proof.
  intros w. split; [cbn; lia|].
  apply (proj2 (predict_catches_every_exception "Open a text editor" (Some "shot") w)
           ltac:(cbn; lia) ConnectionError).
  reflexivity.
Defined.

(** C7 (as the code does it): [reset] sets the step counter and the
    call-user counter to 0 and the first-iteration flag to true, and
    leaves every coordinator (with its conversation and instruction
    state), the sleep flag, the graph state and the stored task as they
    were. *)
Theorem reset_only_resets_counters (a : Agent) :
  trajectory_length (reset a) = 0%Z /\ call_user_count (reset a) = 0%Z /\
  first_iteration (reset a) = true /\
  action_expert (reset a) = action_expert a /\
  planning_expert (reset a) = planning_expert a /\
  reflection_expert (reset a) = reflection_expert a /\
  perception_expert (reset a) = perception_expert a /\
  sleep (reset a) = sleep a /\ graph_state (reset a) = graph_state a /\
  main_task (reset a) = main_task a.
Proof. repeat split. Qed.

(** C7, counterexample: after [reset] of a mid-episode agent the
    reflection and planning experts are not fresh: their conversations
    and the installed instruction list are carried over. *)
Lemma reset_keeps_coordinator_state :
  reflection_expert (reset agent_mid) <> reflection_expert init_agent /\
  planning_expert (reset agent_mid) <> planning_expert init_agent /\
  action_expert (reset agent_mid) <> action_expert init_agent.
Proof. repeat split; cbn; discriminate. Qed.

(** C3 (as the code does it): [parse_llm_response], used by every
    planning and reflection call site, raises ValueError on a response
    without the literal "RESPONSE:"; the action expert's own parser
    [_parse_subtask_response] instead returns the empty command list.  So
    [process_instruction], called with the PIL image its docstring asks
    for, returns [[]] without raising when the oracle's final answer lacks
    the marker; called with a [str] screenshot, the only kind the agent
    holds, it raises AttributeError at [screenshot.size] before the final
    answer is requested. *)
Theorem marker_missing_handling (s : string) (w : World) (r1 r2 r3 r4 : string)
  (rest : list string) :
  (~ exists pre post, s = pre ++ "RESPONSE:" ++ post) ->
  parse_llm_response s = Exc ValueError /\
  Action.parse_subtask_response s "RESPONSE:" = [] /\
  (oracle w = r1 :: r2 :: r3 :: r4 :: s :: rest ->
   (forall wd ht som desc,
      fst (Action.process_instruction (ShotImage wd ht) som desc w) = Ok []) /\
   (forall str som desc,
      fst (Action.process_instruction (ShotStr str) som desc w) = Exc AttributeError)).
Proof.
  intros Hn. apply PyFacts.marker_absent in Hn.
  assert (Hsub : Action.parse_subtask_response s "RESPONSE:" = []).
  { unfold Action.parse_subtask_response. rewrite Hn.
    destruct (String.eqb s ""); reflexivity. }
  split; [unfold parse_llm_response; rewrite Hn; reflexivity|].
  split; [exact Hsub|].
  intros Ho. split.
  - intros wd ht som desc.
    unfold Action.process_instruction, shot_size, bind, ret, get_agent, send_message.
    rewrite Ho. cbn -[Action.parse_subtask_response]. rewrite Hsub. reflexivity.
  - intros str som desc.
    unfold Action.process_instruction, shot_size, bind, throw, get_agent, send_message.
    rewrite Ho. reflexivity.
Qed.

Lemma marker_missing_handling_witness :
  let w := mkWorld agent_mid ["I see a terminal icon."; "Region 3 is the terminal.";
                              "Noted."; "The screen is 1920x1080.";
                              "pyautogui.hotkey('ctrl', 'alt', 't')"] [] [] in
  (~ exists pre post, "pyautogui.hotkey('ctrl', 'alt', 't')" = pre ++ "RESPONSE:" ++ post) /\
  fst (Action.process_instruction (ShotImage 1920 1080) "som" "desc" w) = Ok [] /\
  fst (Action.process_instruction (ShotStr "shot") "som" "desc" w) = Exc AttributeError.
Proof.
  intros w.
  assert (Hn : ~ exists pre post, "pyautogui.hotkey('ctrl', 'alt', 't')" = pre ++ "RESPONSE:" ++ post)
    by (apply PyFacts.marker_absent; reflexivity).
  destruct (proj2 (proj2 (marker_missing_handling "pyautogui.hotkey('ctrl', 'alt', 't')" w
           "I see a terminal icon." "Region 3 is the terminal." "Noted."
           "The screen is 1920x1080." [] Hn)) eq_refl) as [Hi Hs].
  exact (conj Hn (conj (Hi 1920 1080 "som" "desc") (Hs "shot" "som" "desc"))).
Defined.

(** C3, counterexample: the action expert's final oracle answer, a
    decision-carrying response, lacks the marker, and
    [process_instruction] called with an image screenshot returns the
    empty command list instead of raising. *)
Lemma action_response_without_marker_defaults :
  (~ exists pre post, "pyautogui.click(10, 20)" = pre ++ "RESPONSE:" ++ post) /\
  Action.process_instruction (ShotImage 1920 1080) "som" "desc"
    (mkWorld agent_mid ["a"; "b"; "c"; "d"; "pyautogui.click(10, 20)"] [] [])
  = (Ok [], snd (Action.process_instruction (ShotImage 1920 1080) "som" "desc"
                   (mkWorld agent_mid ["a"; "b"; "c"; "d"; "pyautogui.click(10, 20)"] [] []))).
Proof.
  split; [apply PyFacts.marker_absent; reflexivity|vm_compute; reflexivity].
Qed.

(** C8: when the oracle's answer to [rethink_subtask_list] carries the
    marker and its payload splits on ';' into a non-empty list of
    non-blank subtasks, the call stores the first of them as
    [current_subtask] and returns it. *)
Theorem rethink_returns_first_remaining (w : World) (feedback r s x : string)
  (rest tl : list string) :
  oracle w = r :: rest ->
  parse_llm_response r = Ok s ->
  split_clean s = x :: tl ->
  fst (Planning.rethink_subtask_list feedback w) = Ok x /\
  current_subtask (planning_expert (agent (snd (Planning.rethink_subtask_list feedback w)))) = x.
Proof.
  intros Ho Hp Hs.
  destruct (PyFacts.py_index_last x tl) as [y Hy].
  unfold Planning.rethink_subtask_list, bind, get_agent, send_message, lift.
  rewrite Ho, Hp, Hs, Hy, PyFacts.py_index_head.
  split; reflexivity.
Qed.

Lemma rethink_returns_first_remaining_witness :
  let w := mkWorld agent_mid ["Reasoning... RESPONSE: Type the text; Save the file"] [] [] in
  fst (Planning.rethink_subtask_list "" w) = Ok "Type the text" /\
  current_subtask (planning_expert (agent (snd (Planning.rethink_subtask_list "" w)))) =
    "Type the text".
Proof.
  intros w.
  exact (rethink_returns_first_remaining w "" "Reasoning... RESPONSE: Type the text; Save the file"
           "Type the text; Save the file" "Type the text" [] ["Save the file"]
           eq_refl ltac:(vm_compute; reflexivity) ltac:(vm_compute; reflexivity)).
Defined.

(** C1 (as the code does it): [set_subtask_and_instructions] installs the
    list with the cursor at 0, [get_next_instruction] advances the cursor
    by exactly 1, and along any sequence of reflection-expert calls in
    which every installed list is non-empty and [get_next_instruction] is
    called only after [is_last_instruction()] returned false, the cursor
    stays a valid index (0 <= index < len) of the installed list; the
    other calls leave list and cursor unchanged, also when they raise. *)
Theorem instruction_cursor_stays_valid :
  (forall s l w, refl_li (snd (run_op (OpSet s l) w)) = (l, 0%Z)) /\
  (forall w, refl_li (snd (run_op OpNext w)) = (fst (refl_li w), (snd (refl_li w) + 1)%Z)) /\
  (forall ops w,
     cursor_valid (reflection_expert (agent w)) -> ops_pre ops w ->
     cursor_valid (reflection_expert (agent (run_ops ops w)))).
Proof.
  split; [exact CursorFacts.set_installs|].
  split; [exact CursorFacts.next_advances|].
  exact CursorFacts.ops_keep_valid.
Qed.

Lemma instruction_cursor_stays_valid_witness :
  let w := mkWorld (with_reflection (fun r => mkReflection (r_chat r)
                      ["Open the text editor"; "Type hello"] 0) agent_mid)
             ["a"; "b"; "RESPONSE: yes"] [] [] in
  let ops := [OpEvalExec; OpIsLast; OpNext; OpSet "Save the file" ["Press ctrl+s"]] in
  cursor_valid (reflection_expert (agent w)) /\ ops_pre ops w /\
  cursor_valid (reflection_expert (agent (run_ops ops w))).
Proof.
  intros w ops.
  assert (Hv : cursor_valid (reflection_expert (agent w))) by (subst w; unfold cursor_valid; cbn; lia).
  assert (Hp : ops_pre ops w) by (subst w ops; cbn; repeat split; try reflexivity; discriminate).
  split; [exact Hv|]. split; [exact Hp|].
  exact (proj2 (proj2 instruction_cursor_stays_valid) ops w Hv Hp).
Defined.

(** C1, counterexample: from a valid cursor, a Major diagnosis makes the
    planning node replan; the oracle's decomposition ";" has no
    non-blank item, the node installs the empty list with the cursor at 0
    and then raises IndexError on [instruction_list[0]]: the cursor is
    left out of range of the installed list. *)
Lemma empty_decomposition_breaks_cursor :
  cursor_valid (reflection_expert agent_mid) /\
  fst (Barry.planning_node major_state world_empty_decomposition) = Exc IndexError /\
  ~ cursor_valid (reflection_expert
        (agent (snd (Barry.planning_node major_state world_empty_decomposition)))).
Proof.
  split; [unfold cursor_valid; cbn; lia|]. split; [reflexivity|].
  assert (H : refl_li (snd (Barry.planning_node major_state world_empty_decomposition))
              = ([], 0%Z)) by reflexivity.
  rewrite CursorFacts.cursor_valid_iff, H. cbn. lia.
Qed.

(** C4, amended: once the oracle has judged an execution failed, the
    reflection node classifies it Minor exactly when the error verdict
    returned by the oracle starts with "Minor:" and Major otherwise; the
    classification reads no counter, so it is the same whatever the
    earlier evaluations of the same instruction were. *)
Theorem classification_follows_verdict (st : GState) (w : World)
    (a1 a2 a3 a4 p v e : string) (rest : list string) :
  cursor_valid (reflection_expert (agent w)) ->
  oracle w = a1 :: a2 :: a3 :: a4 :: p :: rest ->
  parse_llm_response a3 = Ok v ->
  String.eqb (lower v) "yes" = false ->
  parse_llm_response a4 = Ok e ->
  fst (reflection_node st w) =
    (if prefix "Minor:" e then Ok (upd_reflection e "") else Ok (upd_reflection "" e)).
Proof.
  intros Hv Ho Hp Hn He.
  destruct (prefix "Minor:" e) eqn:Hm.
  - exact (proj1 (NodeFacts.reflection_node_minor st w a1 a2 a3 a4 p v e rest Hv Ho Hp Hn He Hm)).
  - exact (NodeFacts.reflection_node_major st w a1 a2 a3 a4 p v e rest Hv Ho Hp Hn He Hm).
Qed.

Lemma classification_follows_verdict_witness :
  cursor_valid (reflection_expert (agent world_minor_retry)) /\
  fst (reflection_node minor_state world_minor_retry) = Ok (upd_reflection minor_error "").
Proof.
  assert (Hv : cursor_valid (reflection_expert (agent world_minor_retry)))
    by (unfold cursor_valid; cbn; lia).
  split; [exact Hv|].
  exact (classification_follows_verdict minor_state world_minor_retry
           "RESPONSE: The terminal did not open" "RESPONSE: The screen is unchanged"
           "RESPONSE: no" ("RESPONSE: " ++ minor_error) "Open the text editor" "no" minor_error
           (minor_round ++ minor_round)
           Hv eq_refl eq_refl eq_refl eq_refl).
Defined.

(** C4, counterexample: the same instruction evaluated three times in a
    row, each time judged failed with a Minor diagnosis by the oracle; the
    third evaluation is still classified Minor (no replanning is asked
    for) and the cursor still points at the same instruction. *)
Lemma third_minor_not_escalated :
  fst (three_evaluations minor_state world_minor_retry) =
    Ok [minor_state; minor_state; minor_state] /\
  refl_li (snd (three_evaluations minor_state world_minor_retry)) =
    (["Open the text editor"], 0%Z) /\
  reflection_planning minor_state = "" /\
  prefix "Minor:" (reflection_action minor_state) = true.
Proof. repeat split; reflexivity. Qed.

(** C5, amended: when a failed execution is classified Minor, the
    reflection node asks the oracle for one patch instruction (the fifth
    message it consumes), sets it as the action expert's current
    instruction, and leaves the installed instruction list and the cursor
    unchanged; apart from the chat histories no other field of the agent
    changes, so there is no minor-retry counter. *)
Theorem minor_failure_installs_patch (st : GState) (w : World)
    (a1 a2 a3 a4 p v e : string) (rest : list string) :
  cursor_valid (reflection_expert (agent w)) ->
  oracle w = a1 :: a2 :: a3 :: a4 :: p :: rest ->
  parse_llm_response a3 = Ok v ->
  String.eqb (lower v) "yes" = false ->
  parse_llm_response a4 = Ok e ->
  prefix "Minor:" e = true ->
  fst (reflection_node st w) = Ok (upd_reflection e "") /\
  refl_li (snd (reflection_node st w)) = refl_li w /\
  current_instruction (action_expert (agent (snd (reflection_node st w)))) = p /\
  strip_chats (agent (snd (reflection_node st w))) =
    strip_chats (with_action (fun x => mkAction (a_chat x) p) (agent w)) /\
  oracle (snd (reflection_node st w)) = rest.
Proof.
  intros Hv Ho Hp Hn He Hm.
  exact (NodeFacts.reflection_node_minor st w a1 a2 a3 a4 p v e rest Hv Ho Hp Hn He Hm).
Qed.

Lemma minor_failure_installs_patch_witness :
  cursor_valid (reflection_expert (agent world_minor_retry)) /\
  current_instruction (action_expert
    (agent (snd (reflection_node init_gstate world_minor_retry)))) = "Open the text editor".
Proof.
  assert (Hv : cursor_valid (reflection_expert (agent world_minor_retry)))
    by (unfold cursor_valid; cbn; lia).
  split; [exact Hv|].
  exact (proj1 (proj2 (proj2 (minor_failure_installs_patch init_gstate world_minor_retry
           "RESPONSE: The terminal did not open" "RESPONSE: The screen is unchanged"
           "RESPONSE: no" ("RESPONSE: " ++ minor_error) "Open the text editor" "no" minor_error
           (minor_round ++ minor_round)
           Hv eq_refl eq_refl eq_refl eq_refl eq_refl)))).
Defined.

(** C5, counterexample: a Minor step from [minor_state] whose patch equals
    the current instruction changes neither the step state nor any field
    of the agent other than the chat histories, so no quantity computed
    from them can have been incremented by the step. *)
Lemma minor_step_increments_nothing :
  ~ exists (cnt : Agent -> GState -> Z) (u : update),
      fst (reflection_node minor_state world_minor_retry) = Ok u /\
      cnt (strip_chats (agent (snd (reflection_node minor_state world_minor_retry))))
          (u minor_state)
      = (cnt (strip_chats (agent world_minor_retry)) minor_state + 1)%Z.
Proof.
  intros [cnt [u [Hu Hc]]].
  assert (E : fst (reflection_node minor_state world_minor_retry)
              = Ok (upd_reflection minor_error "")) by reflexivity.
  rewrite E in Hu. injection Hu as Hu. subst u.
  assert (A : strip_chats (agent (snd (reflection_node minor_state world_minor_retry)))
              = strip_chats (agent world_minor_retry)) by reflexivity.
  assert (S : upd_reflection minor_error "" minor_state = minor_state) by reflexivity.
  rewrite A, S in Hc. lia.
Qed.

(** C6, failing input: the last instruction of the last subtask is judged
    executed and the oracle answers "yes" to the main-task-done question.
    [is_main_task_done] compares the first character of the answer with
    "yes" and returns false, so the planning node replans instead of
    setting done; the action node then raises TypeError (four arguments
    for [process_instruction]); and [predict] itself returns the FAIL pair,
    since [get_screenshot] is missing from the perception expert. *)
Lemma finished_task_not_reported_done :
  fst (reflection_node init_gstate world_task_finished) = Ok (upd_reflection "" "finish") /\
  hd "" (oracle (snd (reflection_node init_gstate world_task_finished))) = "RESPONSE: yes" /\
  fst (Planning.is_main_task_done (snd (reflection_node init_gstate world_task_finished)))
    = Ok false /\
  fst (planning_node (upd_reflection "" "finish" init_gstate)
         (snd (reflection_node init_gstate world_task_finished))) = Ok (fun g => g) /\
  fst (graph_invoke init_gstate world_task_finished) = Exc TypeError /\
  fst (predict "Open a text editor and type 'hello'" (Some "shot") world_task_finished)
    = Ok FAIL_EXC.
Proof. repeat split; reflexivity. Qed.

End Claims.

(* ------------------------------------------------------------------ *)
(** * Facts on [strip], [split_once] and [split(';')] *)

Module StrFacts.

Lemma lstrip_idem (l : list ascii) : lstrip_l (lstrip_l l) = lstrip_l l.
Proof.
  induction l as [|c l IH]; cbn; [reflexivity|].
  destruct (is_space c) eqn:Hc; [exact IH|cbn; rewrite Hc; reflexivity].
Qed.

Lemma lstrip_suffix (l : list ascii) : exists p, l = (p ++ lstrip_l l)%list.
Proof.
  induction l as [|c l [p Hp]]; cbn; [exists []; reflexivity|].
  destruct (is_space c); [exists (c :: p); cbn; f_equal; exact Hp|exists []; reflexivity].
Qed.

(** A list that starts with a non-space is left alone. *)
Definition starts_clean (l : list ascii) : Prop :=
  match l with [] => True | c :: _ => is_space c = false end.

Lemma lstrip_starts_clean (l : list ascii) : starts_clean (lstrip_l l).
Proof.
  induction l as [|c l IH]; cbn; [exact I|].
  destruct (is_space c) eqn:Hc; [exact IH|exact Hc].
Qed.

Lemma lstrip_fix (l : list ascii) : starts_clean l -> lstrip_l l = l.
Proof. destruct l as [|c l]; cbn; [reflexivity|]. intros ->. reflexivity. Qed.

Lemma rev_lstrip_rev_starts_clean (x : list ascii) :
  starts_clean x -> starts_clean (rev (lstrip_l (rev x))).
Proof.
  intros Hx. destruct (lstrip_suffix (rev x)) as [p Hp].
  assert (E : x = (rev (lstrip_l (rev x)) ++ rev p)%list).
  { rewrite <- rev_app_distr, <- Hp, rev_involutive. reflexivity. }
  destruct (rev (lstrip_l (rev x))) as [|c t]; cbn; [exact I|].
  rewrite E in Hx. exact Hx.
Qed.

Lemma strip_list (s : string) :
  list_ascii_of_string (strip s) =
  rev (lstrip_l (rev (lstrip_l (list_ascii_of_string s)))).
Proof. unfold strip. apply list_ascii_of_string_of_list_ascii. Qed.

(** [str.strip] is idempotent. *)
Lemma strip_idem (s : string) : strip (strip s) = strip s.
Proof.
  unfold strip at 1. rewrite strip_list. unfold strip.
  set (L := lstrip_l (list_ascii_of_string s)).
  assert (HL : starts_clean L) by apply lstrip_starts_clean.
  rewrite (lstrip_fix _ (rev_lstrip_rev_starts_clean _ HL)).
  rewrite rev_involutive, lstrip_idem. reflexivity.
Qed.

Lemma split_clean_items (s : string) : Forall clean_item (split_clean s).
Proof.
  unfold split_clean. apply Forall_forall. intros t Ht.
  apply filter_In in Ht as [Hm Hne]. apply in_map_iff in Hm as [u [<- _]].
  split; [intros E; rewrite E in Hne; discriminate|apply strip_idem].
Qed.

(** [split_once] stops at the first occurrence of [sep]. *)
Lemma split_once_first (sep s a b pre post : string) :
  split_once sep s = Some (a, b) -> s = pre ++ sep ++ post ->
  String.length a <= String.length pre.
Proof.
  revert a b pre; induction s as [|c s IH]; intros a b pre H E;
    rewrite PyFacts.split_once_unfold in H.
  - destruct (prefix sep "") eqn:Hp; [|discriminate].
    injection H as <- <-. cbn. lia.
  - destruct (prefix sep (String c s)) eqn:Hp.
    + injection H as <- <-. cbn. lia.
    + destruct pre as [|d pre].
      * cbn in E. rewrite E, PyFacts.prefix_app in Hp. discriminate.
      * cbn in E. injection E as <- E.
        destruct (split_once sep s) as [[a' b']|]; [|discriminate].
        injection H as <- <-. cbn. specialize (IH a' b' pre eq_refl E). lia.
Qed.

Lemma append_assoc_s (x y z : string) : (x ++ y) ++ z = x ++ y ++ z.
Proof. induction x as [|c x IH]; cbn; [reflexivity|]. rewrite IH. reflexivity. Qed.

Lemma append_empty_s (x : string) : x ++ "" = x.
Proof. induction x as [|c x IH]; cbn; [reflexivity|]. rewrite IH. reflexivity. Qed.

Lemma split_semi_acc_plain (s cur : string) :
  no_semi s = true -> split_semi_acc cur s = [cur ++ s].
Proof.
  revert cur; induction s as [|c s IH]; intros cur H; cbn.
  - rewrite append_empty_s. reflexivity.
  - cbn in H. apply andb_true_iff in H as [Hc H].
    destruct (Ascii.eqb c ";"); [discriminate|].
    rewrite (IH _ H), append_assoc_s. reflexivity.
Qed.

Lemma split_semi_acc_sep (s cur r : string) :
  no_semi s = true ->
  split_semi_acc cur (s ++ String ";" r) = (cur ++ s) :: split_semi_acc EmptyString r.
Proof.
  revert cur; induction s as [|c s IH]; intros cur H; cbn.
  - rewrite append_empty_s. reflexivity.
  - cbn in H. apply andb_true_iff in H as [Hc H].
    destruct (Ascii.eqb c ";"); [discriminate|].
    rewrite (IH _ H), append_assoc_s. reflexivity.
Qed.

Lemma split_semi_concat (l : list string) :
  l <> [] -> Forall (fun t => no_semi t = true) l ->
  split_semi (String.concat ";" l) = l.
Proof.
  unfold split_semi.
  induction l as [|x l IH]; intros Hne Hl; [congruence|].
  inversion Hl as [|? ? Hx Hl']; subst.
  destruct l as [|y l].
  - cbn [String.concat]. rewrite (split_semi_acc_plain _ _ Hx). reflexivity.
  - change (String.concat ";" (x :: y :: l)) with (x ++ String ";" (String.concat ";" (y :: l))).
    rewrite (split_semi_acc_sep _ _ _ Hx), (IH ltac:(discriminate) Hl'). reflexivity.
Qed.

End StrFacts.

(* ------------------------------------------------------------------ *)
(** * Facts on list indexing and on the values computations return *)

Module RetFacts.

Lemma nth_error_last {A} (x d : A) (tl : list A) :
  nth_error (x :: tl) (List.length tl) = Some (last (x :: tl) d).
Proof.
  revert x; induction tl as [|y tl IH]; intros x; [reflexivity|].
  change (nth_error (y :: tl) (List.length tl) = Some (last (y :: tl) d)).
  apply IH.
Qed.

(** [l[-1]] is the last element of a non-empty list. *)
Lemma py_index_minus_one {A} (x : A) (tl : list A) (w : World) :
  py_index (x :: tl) (-1) w = (Ok (last (x :: tl) x), w).
Proof.
  unfold py_index. cbn [List.length].
  replace ((-1 <? 0)%Z) with true by reflexivity.
  replace ((0 <=? Z.of_nat (S (List.length tl)) + -1)%Z &&
           (Z.of_nat (S (List.length tl)) + -1 <? Z.of_nat (S (List.length tl)))%Z)%bool
    with true by (symmetry; apply andb_true_iff; split; [apply Z.leb_le|apply Z.ltb_lt]; lia).
  replace (Z.to_nat (Z.of_nat (S (List.length tl)) + -1)) with (List.length tl) by lia.
  rewrite (nth_error_last x x). reflexivity.
Qed.

Lemma returns_only_ret {A} (P : A -> Prop) (v : A) : P v -> returns_only P (ret v).
Proof. intros H w a E. injection E as <-. exact H. Qed.

Lemma returns_only_throw {A} (P : A -> Prop) (e : exn) : returns_only P (throw e).
Proof. intros w a E. discriminate. Qed.

Lemma returns_only_bind {A B} (Q : A -> Prop) (P : B -> Prop) (m : M A) (k : A -> M B) :
  returns_only Q m -> (forall a, Q a -> returns_only P (k a)) -> returns_only P (bind m k).
Proof.
  intros Hm Hk w b E. unfold bind in E.
  destruct (m w) as [[a|e] w'] eqn:Hw; [|discriminate].
  apply (Hk a (Hm w a ltac:(rewrite Hw; reflexivity)) w' b E).
Qed.

Lemma returns_only_true {A} (m : M A) : returns_only (fun _ => True) m.
Proof. intros w a _. exact I. Qed.

Lemma returns_only_weaken {A} (P Q : A -> Prop) (m : M A) :
  (forall a, P a -> Q a) -> returns_only P m -> returns_only Q m.
Proof. intros H Hm w a E. exact (H a (Hm w a E)). Qed.

(** [l[i]] past the end of the list raises IndexError. *)
Lemma py_index_past_end {A} (l : list A) (i : Z) (w : World) :
  (Z.of_nat (List.length l) <= i)%Z -> py_index l i w = (Exc IndexError, w).
Proof.
  intros Hi. unfold py_index.
  replace (i <? 0)%Z with false by (symmetry; apply Z.ltb_ge; lia).
  replace (i <? Z.of_nat (List.length l))%Z with false by (symmetry; apply Z.ltb_ge; lia).
  rewrite andb_false_r. reflexivity.
Qed.

Ltac ro_solve :=
  repeat match goal with
  | |- returns_only _ (bind _ _) =>
      apply (returns_only_bind (fun _ => True)); [apply returns_only_true|intros ? _]
  | |- returns_only _ (ret _) => apply returns_only_ret
  | |- returns_only _ (throw _) => apply returns_only_throw
  | |- returns_only _ (if ?b then _ else _) => destruct b
  | |- returns_only _ (match ?b with _ => _ end) => destruct b
  end.

Lemma is_main_task_done_not_true :
  returns_only (fun b => b <> true) Planning.is_main_task_done.
Proof.
  unfold Planning.is_main_task_done. ro_solve.
  intros E. apply String.eqb_eq in E. apply (f_equal String.length) in E. discriminate.
Qed.

(** The planning node returns only the identity update: it never sets
    the done flag, since [is_main_task_done] never returns True. *)
Lemma planning_node_identity (st : GState) :
  returns_only (fun u => forall g, u g = g) (Barry.planning_node st).
Proof.
  unfold Barry.planning_node.
  apply (returns_only_bind (fun _ => True)); [apply returns_only_true|intros a _].
  apply (returns_only_bind (fun s : option string => s <> None)).
  - destruct (first_iteration a); [ro_solve; discriminate|].
    destruct (String.eqb (reflection_planning st) "finish").
    + apply (returns_only_bind (fun b => b <> true)); [exact is_main_task_done_not_true|].
      intros d Hd. destruct d; [congruence|]. ro_solve. discriminate.
    + ro_solve. discriminate.
  - intros sub Hsub. destruct sub as [subtask|]; [|congruence].
    ro_solve. intros g. reflexivity.
Qed.

(** The action node returns normally only on a state whose done flag is
    set: otherwise its four-argument call of [process_instruction]
    raises TypeError. *)
Lemma action_node_done (st : GState) :
  returns_only (fun u => done st = true /\ u = upd_osworld (OAStr "done")) (Barry.action_node st).
Proof.
  unfold Barry.action_node. destruct (done st) eqn:Hd.
  - apply returns_only_ret. split; reflexivity.
  - apply (returns_only_bind (fun _ => True)); [apply returns_only_true|intros a _].
    unfold py_call. cbn [Nat.eqb]. intros w0 u0 E. cbn in E. discriminate.
Qed.

Lemma reflection_node_keeps_done (st : GState) :
  returns_only (fun u => forall g, done (u g) = done g) (Barry.reflection_node st).
Proof. unfold Barry.reflection_node. ro_solve; reflexivity. Qed.

Lemma planning_then_action_done (st : GState) :
  returns_only (fun st' => done st = true /\ done st' = true /\ osworld_action st' = OAStr "done")
    (Barry.planning_then_action st).
Proof.
  unfold Barry.planning_then_action.
  apply (returns_only_bind (fun u => forall g, u g = g)); [apply planning_node_identity|].
  intros u Hu. cbv zeta.
  apply (returns_only_bind (fun u2 => done (u st) = true /\ u2 = upd_osworld (OAStr "done")));
    [apply action_node_done|].
  intros u2 [Hd ->]. apply returns_only_ret.
  rewrite Hu in Hd |- *. repeat split; [exact Hd|exact Hd].
Qed.

Lemma graph_invoke_done (st : GState) :
  returns_only (fun st' => done st = true /\ done st' = true /\ osworld_action st' = OAStr "done")
    (Barry.graph_invoke st).
Proof.
  unfold Barry.graph_invoke.
  apply (returns_only_bind (fun _ => True)); [apply returns_only_true|intros _ _].
  apply (returns_only_bind (fun _ => True)); [apply returns_only_true|intros a _].
  destruct (first_iteration a); [apply planning_then_action_done|].
  apply (returns_only_bind (fun u => forall g, done (u g) = done g));
    [apply reflection_node_keeps_done|].
  intros u Hu. cbv zeta.
  destruct (negb _).
  - eapply returns_only_weaken; [|apply planning_then_action_done].
    intros st' [H1 H2]. rewrite Hu in H1. split; [exact H1|exact H2].
  - apply (returns_only_bind (fun u2 => done (u st) = true /\ u2 = upd_osworld (OAStr "done")));
      [apply action_node_done|].
    intros u2 [Hd ->]. apply returns_only_ret.
    rewrite Hu in Hd. cbn. rewrite Hu. repeat split; exact Hd.
Qed.

(** [predict] changes only the step counter and the perception expert,
    and calls nothing but the perception backend. *)
Lemma predict_frame_agent (i : string) (o : option string) (w : World) :
  oracle (snd (Barry.predict i o w)) = oracle w /\
  (trace (snd (Barry.predict i o w)) = trace w \/
   trace (snd (Barry.predict i o w)) = (trace w ++ [EvPerception])%list) /\
  agent (snd (Barry.predict i o w)) =
    with_perception (fun _ => perception_expert (agent (snd (Barry.predict i o w))))
      (with_trajectory_length (trajectory_length (agent w) + 1) (agent w)).
Proof.
  rewrite BarryFacts.predict_unfold.
  destruct (_ >? _)%Z; [split; [|split; [left|]]; reflexivity|].
  unfold try_except, Barry.predict_body, Barry.process_new_screenshot, Perception.store_screenshot,
    Perception.process_screenshot, Perception.get_screenshot, modify_agent, bind, throw, ret.
  destruct o as [s|]; [|cbn; split; [|split; [left|]]; reflexivity].
  cbn. destruct (omni w) as [|[[img desc]|] rest]; cbn;
    (split; [reflexivity|split; [right; reflexivity|reflexivity]]).
Qed.

End RetFacts.

Module Extras.
Import Barry.

(** X: [parse_llm_response] succeeds exactly when the response contains
    "RESPONSE:", and then returns the text after the first occurrence of
    the marker, stripped; the value it returns is itself stripped. *)
Theorem parse_llm_response_first_marker (s v : string) :
  parse_llm_response s = Ok v ->
  exists pre post,
    s = pre ++ "RESPONSE:" ++ post /\ v = strip post /\ strip v = v /\
    forall pre' post', s = pre' ++ "RESPONSE:" ++ post' ->
      String.length pre <= String.length pre'.
Proof.
  unfold parse_llm_response.
  destruct (split_once "RESPONSE:" s) as [[a b]|] eqn:Hs; [|discriminate].
  intros H. injection H as <-.
  exists a, b. split; [exact (PyFacts.split_once_some _ _ _ _ Hs)|].
  split; [reflexivity|]. split; [apply StrFacts.strip_idem|].
  intros pre' post' E. exact (StrFacts.split_once_first _ _ _ _ _ _ Hs E).
Qed.

Lemma parse_llm_response_first_marker_witness :
  parse_llm_response "a RESPONSE:  b RESPONSE: c " = Ok "b RESPONSE: c" /\
  exists pre post,
    "a RESPONSE:  b RESPONSE: c " = pre ++ "RESPONSE:" ++ post /\ "b RESPONSE: c" = strip post /\
    strip "b RESPONSE: c" = "b RESPONSE: c" /\
    forall pre' post', "a RESPONSE:  b RESPONSE: c " = pre' ++ "RESPONSE:" ++ post' ->
      String.length pre <= String.length pre'.
Proof.
  split; [reflexivity|].
  apply (parse_llm_response_first_marker "a RESPONSE:  b RESPONSE: c " "b RESPONSE: c").
  reflexivity.
Defined.

(** X: every item of a ';'-separated list cleaned by the planning expert
    ([decompose_subtask]) or by the action expert's parser is non-blank
    and carries no surrounding whitespace. *)
Theorem decomposed_items_are_clean (w : World) (l : list string) (s m : string) :
  fst (Planning.decompose_subtask w) = Ok l ->
  Forall clean_item l /\ Forall clean_item (Action.parse_subtask_response s m).
Proof.
  intros H. split.
  - unfold Planning.decompose_subtask, bind, get_agent, send_message, lift in H.
    destruct (oracle w) as [|r rest]; cbn in H; [discriminate|].
    destruct (parse_llm_response r) as [v|e]; cbn in H; [|discriminate].
    injection H as <-. apply StrFacts.split_clean_items.
  - unfold Action.parse_subtask_response.
    destruct (String.eqb s ""); [constructor|].
    destruct (split_once m s) as [[a b]|]; [apply StrFacts.split_clean_items|constructor].
Qed.

Lemma decomposed_items_are_clean_witness :
  fst (Planning.decompose_subtask (mkWorld agent_mid ["RESPONSE:  Click menu ;; Open editor "] [] []))
    = Ok ["Click menu"; "Open editor"] /\
  Forall clean_item ["Click menu"; "Open editor"].
Proof.
  assert (E : fst (Planning.decompose_subtask
                     (mkWorld agent_mid ["RESPONSE:  Click menu ;; Open editor "] [] []))
              = Ok ["Click menu"; "Open editor"]) by reflexivity.
  split; [exact E|].
  exact (proj1 (decomposed_items_are_clean
    (mkWorld agent_mid ["RESPONSE:  Click menu ;; Open editor "] [] [])
    ["Click menu"; "Open editor"] "" "RESPONSE:" E)).
Defined.

(** X: joining non-blank, stripped items that contain no ';' with ';'
    and splitting the result as the experts do ([split(';')], strip,
    drop blanks) gives the items back. *)
Theorem split_clean_concat_roundtrip (l : list string) :
  Forall (fun t => clean_item t /\ no_semi t = true) l ->
  split_clean (String.concat ";" l) = l.
Proof.
  intros Hl. destruct l as [|x l']; [reflexivity|].
  unfold split_clean.
  rewrite StrFacts.split_semi_concat
    by (discriminate || (eapply Forall_impl; [|exact Hl]; intros t [_ H]; exact H)).
  induction Hl as [|t l'' [[Hne Hs] _] _ IH]; [reflexivity|].
  cbn. rewrite Hs.
  destruct (String.eqb t "") eqn:E; [apply String.eqb_eq in E; contradiction|].
  cbn. f_equal. exact IH.
Qed.

Lemma split_clean_concat_roundtrip_witness :
  split_clean "Open the menu;Click Save" = ["Open the menu"; "Click Save"].
Proof.
  apply (split_clean_concat_roundtrip ["Open the menu"; "Click Save"]).
  repeat constructor; try discriminate; vm_compute; reflexivity.
Defined.




(** X: [rethink_subtask_list] stores the last item of the new subtask
    list in [last_task_for_test], so a following
    [_set_current_task_as_last] makes it the current subtask; an answer
    whose payload has no non-blank item raises IndexError and leaves both
    fields as they were. *)
Theorem rethink_records_last_subtask (fb : string) (w : World) (r v : string)
    (rest : list string) :
  oracle w = r :: rest -> parse_llm_response r = Ok v ->
  match split_clean v with
  | [] =>
      fst (Planning.rethink_subtask_list fb w) = Exc IndexError /\
      last_task_for_test (planning_expert (agent (snd (Planning.rethink_subtask_list fb w))))
        = last_task_for_test (planning_expert (agent w)) /\
      current_subtask (planning_expert (agent (snd (Planning.rethink_subtask_list fb w))))
        = current_subtask (planning_expert (agent w))
  | x :: tl =>
      last_task_for_test (planning_expert (agent (snd (Planning.rethink_subtask_list fb w))))
        = last (x :: tl) x /\
      current_subtask (planning_expert (agent (snd
        ((Planning.rethink_subtask_list fb ;;; Planning.set_current_task_as_last) w))))
        = last (x :: tl) x
  end.
Proof.
  intros Ho Hp.
  unfold Planning.rethink_subtask_list, Planning.set_subtasks,
    Planning.set_current_task_as_last, modify_agent, bind, get_agent, send_message, lift.
  cbn -[parse_llm_response split_clean py_index]. rewrite Ho.
  cbn -[parse_llm_response split_clean py_index]. rewrite Hp.
  cbn -[split_clean py_index].
  destruct (split_clean v) as [|x tl].
  - unfold py_index. cbn. repeat split.
  - rewrite RetFacts.py_index_minus_one. cbn -[py_index].
    rewrite PyFacts.py_index_head. cbn. split; reflexivity.
Qed.

Lemma rethink_records_last_subtask_witness :
  current_subtask (planning_expert (agent (snd
    ((Planning.rethink_subtask_list "" ;;; Planning.set_current_task_as_last)
       (mkWorld agent_mid ["RESPONSE: Open the editor; Type hello ; Save the file;"] [] [])))))
  = "Save the file".
Proof.
  pose proof (rethink_records_last_subtask ""
    (mkWorld agent_mid ["RESPONSE: Open the editor; Type hello ; Save the file;"] [] [])
    "RESPONSE: Open the editor; Type hello ; Save the file;"
    "Open the editor; Type hello ; Save the file;" [] eq_refl eq_refl) as H.
  vm_compute in H. vm_compute. exact (proj2 H).
Defined.

(** X: [is_main_task_done] never returns True: it compares the first
    character of the parsed answer with the three-letter string "yes". *)
Theorem is_main_task_done_never_true (w : World) :
  fst (Planning.is_main_task_done w) <> Ok true.
Proof.
  intros E. exact (RetFacts.is_main_task_done_not_true w true E eq_refl).
Qed.

(** X: on an answer carrying the marker, [is_main_task_done] returns
    False when the payload is non-empty, and raises IndexError when it is
    empty. *)
Theorem is_main_task_done_outcome (w : World) (r v : string) (rest : list string) :
  oracle w = r :: rest -> parse_llm_response r = Ok v ->
  fst (Planning.is_main_task_done w) = if String.eqb v "" then Exc IndexError else Ok false.
Proof.
  intros Ho Hp.
  unfold Planning.is_main_task_done, bind, get_agent, send_message, lift.
  cbn -[parse_llm_response py_index]. rewrite Ho.
  cbn -[parse_llm_response py_index]. rewrite Hp.
  destruct v as [|c v]; [reflexivity|].
  cbn [list_ascii_of_string]. rewrite PyFacts.py_index_head.
  cbn. destruct (lower_char c =? "y")%char; reflexivity.
Qed.

Lemma is_main_task_done_outcome_witness :
  fst (Planning.is_main_task_done (mkWorld agent_mid ["RESPONSE: yes"] [] [])) = Ok false /\
  fst (Planning.is_main_task_done (mkWorld agent_mid ["RESPONSE:   "] [] [])) = Exc IndexError.
Proof.
  split.
  - exact (is_main_task_done_outcome (mkWorld agent_mid ["RESPONSE: yes"] [] [])
             "RESPONSE: yes" "yes" [] eq_refl eq_refl).
  - exact (is_main_task_done_outcome (mkWorld agent_mid ["RESPONSE:   "] [] [])
             "RESPONSE:   " "" [] eq_refl eq_refl).
Defined.

(** X: when the reflection expert's cursor is past the end of its
    instruction list, [evaluate_execution] and [evaluate_error] raise
    IndexError before sending anything to the oracle: the world is left
    exactly as it was. *)
Theorem evaluations_past_end_raise (w : World) (m : string) :
  (Z.of_nat (List.length (instruction_list (reflection_expert (agent w))))
     <= instruction_index (reflection_expert (agent w)))%Z ->
  Reflection.evaluate_execution w = (Exc IndexError, w) /\
  Reflection.evaluate_error m w = (Exc IndexError, w).
Proof.
  intros Hi.
  unfold Reflection.evaluate_execution, Reflection.evaluate_error, bind, get_agent.
  cbn -[py_index]. rewrite (RetFacts.py_index_past_end _ _ w Hi). split; reflexivity.
Qed.

Lemma evaluations_past_end_raise_witness :
  Reflection.evaluate_execution
    (mkWorld (with_reflection (fun r => mkReflection (r_chat r) [] 0) agent_mid)
       ["RESPONSE: yes"] [] [])
  = (Exc IndexError,
     mkWorld (with_reflection (fun r => mkReflection (r_chat r) [] 0) agent_mid)
       ["RESPONSE: yes"] [] []) /\
  Reflection.evaluate_error "Open a text editor"
    (mkWorld (with_reflection (fun r => mkReflection (r_chat r) [] 0) agent_mid)
       ["RESPONSE: yes"] [] [])
  = (Exc IndexError,
     mkWorld (with_reflection (fun r => mkReflection (r_chat r) [] 0) agent_mid)
       ["RESPONSE: yes"] [] []).
Proof.
  apply evaluations_past_end_raise. cbn. lia.
Defined.

(** X: with the cursor in range, [evaluate_execution] consumes three
    oracle answers and returns whether the third one's payload is "yes"
    ignoring case (it raises when that answer lacks the marker); the
    installed list and the cursor are unchanged. *)
Theorem evaluate_execution_outcome (w : World) (a1 a2 a3 : string) (rest : list string) :
  cursor_valid (reflection_expert (agent w)) ->
  oracle w = a1 :: a2 :: a3 :: rest ->
  fst (Reflection.evaluate_execution w) =
    match parse_llm_response a3 with
    | Ok v => Ok (String.eqb (lower v) "yes")
    | Exc e => Exc e
    end /\
  oracle (snd (Reflection.evaluate_execution w)) = rest /\
  refl_li (snd (Reflection.evaluate_execution w)) = refl_li w.
Proof.
  intros Hv Ho.
  destruct (PyFacts.py_index_in_range _ _ Hv) as [x [_ Hx]].
  unfold Reflection.evaluate_execution, bind, get_agent, lift, send_message.
  cbn -[py_index parse_llm_response lower]. rewrite Hx.
  cbn -[py_index parse_llm_response lower]. rewrite Ho.
  cbn -[py_index parse_llm_response lower].
  destruct (parse_llm_response a3); repeat split.
Qed.

Lemma evaluate_execution_outcome_witness :
  fst (Reflection.evaluate_execution (mkWorld agent_mid ["a"; "b"; "RESPONSE:  YeS "] [] []))
    = Ok true.
Proof.
  assert (Hv : cursor_valid (reflection_expert (agent (mkWorld agent_mid ["a"; "b"; "RESPONSE:  YeS "] [] []))))
    by (unfold cursor_valid; cbn; lia).
  exact (proj1 (evaluate_execution_outcome (mkWorld agent_mid ["a"; "b"; "RESPONSE:  YeS "] [] [])
                  "a" "b" "RESPONSE:  YeS " [] Hv eq_refl)).
Defined.

(** X: with the cursor in range, [evaluate_error] consumes one oracle
    answer and returns what [parse_llm_response] makes of it; it leaves
    the installed list, the cursor and every field of the agent other
    than the chat histories unchanged. *)
Theorem evaluate_error_outcome (w : World) (m r : string) (rest : list string) :
  cursor_valid (reflection_expert (agent w)) ->
  oracle w = r :: rest ->
  fst (Reflection.evaluate_error m w) = parse_llm_response r /\
  oracle (snd (Reflection.evaluate_error m w)) = rest /\
  strip_chats (agent (snd (Reflection.evaluate_error m w))) = strip_chats (agent w).
Proof.
  intros Hv Ho.
  destruct (PyFacts.py_index_in_range _ _ Hv) as [x [_ Hx]].
  unfold Reflection.evaluate_error, bind, get_agent, lift, send_message.
  cbn -[py_index parse_llm_response]. rewrite Hx.
  cbn -[py_index parse_llm_response]. rewrite Ho.
  cbn -[py_index parse_llm_response].
  destruct (parse_llm_response r); repeat split.
Qed.

Lemma evaluate_error_outcome_witness :
  fst (Reflection.evaluate_error "Open a text editor"
         (mkWorld agent_mid ["RESPONSE: Major: wrong window"] [] []))
    = Ok "Major: wrong window".
Proof.
  assert (Hv : cursor_valid (reflection_expert (agent
                 (mkWorld agent_mid ["RESPONSE: Major: wrong window"] [] []))))
    by (unfold cursor_valid; cbn; lia).
  exact (proj1 (evaluate_error_outcome (mkWorld agent_mid ["RESPONSE: Major: wrong window"] [] [])
                  "Open a text editor" "RESPONSE: Major: wrong window" [] Hv eq_refl)).
Defined.

(** X: [get_next_instruction] moves the cursor forward by one even when
    it then raises; from a non-negative cursor it raises IndexError
    exactly when the new cursor is past the end of the list, and returns
    the instruction at the new cursor otherwise. *)
Theorem get_next_instruction_outcome (w : World) :
  (0 <= instruction_index (reflection_expert (agent w)))%Z ->
  refl_li (snd (Reflection.get_next_instruction w)) =
    (instruction_list (reflection_expert (agent w)),
     instruction_index (reflection_expert (agent w)) + 1)%Z /\
  fst (Reflection.get_next_instruction w) =
    (if (instruction_index (reflection_expert (agent w)) + 1
           <? Z.of_nat (List.length (instruction_list (reflection_expert (agent w)))))%Z
     then Ok (nth (Z.to_nat (instruction_index (reflection_expert (agent w)) + 1))
                  (instruction_list (reflection_expert (agent w))) "")
     else Exc IndexError).
Proof.
  intros H0.
  unfold Reflection.get_next_instruction, Reflection.set_list_index, modify_agent, bind, get_agent.
  cbn -[py_index].
  set (l := instruction_list (reflection_expert (agent w))).
  set (i := instruction_index (reflection_expert (agent w))).
  destruct (Z.ltb_spec (i + 1) (Z.of_nat (List.length l))) as [Hlt|Hge].
  - destruct (PyFacts.py_index_in_range l (i + 1) ltac:(lia)) as [x [Hn Hx]].
    rewrite Hx. cbn. split; [reflexivity|].
    f_equal. symmetry. apply nth_error_nth. exact Hn.
  - rewrite RetFacts.py_index_past_end by lia. split; reflexivity.
Qed.

Lemma get_next_instruction_outcome_witness :
  fst (Reflection.get_next_instruction (mkWorld agent_mid [] [] [])) = Exc IndexError /\
  refl_li (snd (Reflection.get_next_instruction (mkWorld agent_mid [] [] [])))
    = (["Open the text editor"], 1%Z).
Proof.
  destruct (get_next_instruction_outcome (mkWorld agent_mid [] [] []) ltac:(cbn; lia)) as [H1 H2].
  split; [exact H2|exact H1].
Defined.

(** X: when the oracle judges the current instruction executed, the
    reflection node asks for replanning ("finish") if it was the last
    instruction, leaving the cursor and the action expert's instruction
    as they were; otherwise it moves the cursor forward by one and hands
    the next instruction to the action expert, asking for nothing. *)
Theorem reflection_node_success (st : GState) (w : World) (a1 a2 a3 v : string)
    (rest : list string) :
  cursor_valid (reflection_expert (agent w)) ->
  oracle w = a1 :: a2 :: a3 :: rest ->
  parse_llm_response a3 = Ok v -> String.eqb (lower v) "yes" = true ->
  oracle (snd (reflection_node st w)) = rest /\
  if Reflection.is_last_instruction_of (reflection_expert (agent w)) then
    fst (reflection_node st w) = Ok (upd_reflection "" "finish") /\
    refl_li (snd (reflection_node st w)) = refl_li w /\
    current_instruction (action_expert (agent (snd (reflection_node st w)))) =
      current_instruction (action_expert (agent w))
  else
    fst (reflection_node st w) = Ok (upd_reflection "" "") /\
    refl_li (snd (reflection_node st w)) =
      (instruction_list (reflection_expert (agent w)),
       instruction_index (reflection_expert (agent w)) + 1)%Z /\
    current_instruction (action_expert (agent (snd (reflection_node st w)))) =
      nth (Z.to_nat (instruction_index (reflection_expert (agent w)) + 1))
        (instruction_list (reflection_expert (agent w))) "".
Proof.
  intros Hv Ho Hp Hy.
  destruct (PyFacts.py_index_in_range _ _ Hv) as [x [_ Hx]].
  unfold reflection_node, Reflection.evaluate_execution, Reflection.is_last_instruction,
    Reflection.get_next_instruction, Reflection.set_list_index, Action.set_current_instruction,
    Reflection.is_last_instruction_of, bind, get_agent, lift, modify_agent.
  cbn -[py_index parse_llm_response lower]. rewrite Hx.
  cbn -[py_index parse_llm_response lower]. unfold send_message. rewrite Ho.
  cbn -[py_index parse_llm_response lower]. rewrite Hp, Hy.
  cbn -[py_index].
  set (l := instruction_list (reflection_expert (agent w))) in *.
  set (i := instruction_index (reflection_expert (agent w))) in *.
  destruct (Z.eqb_spec (Z.of_nat (List.length l) - 1) i) as [Hl|Hl].
  - repeat split.
  - unfold cursor_valid in Hv; fold l i in Hv.
    destruct (PyFacts.py_index_in_range l (i + 1) ltac:(lia)) as [y [Hn Hy']].
    rewrite Hy'. cbn. repeat split.
    symmetry. apply nth_error_nth. exact Hn.
Qed.

Lemma reflection_node_success_witness :
  fst (reflection_node init_gstate
         (mkWorld (with_reflection (fun r => mkReflection (r_chat r)
                     ["Open the text editor"; "Type hello"] 0) agent_mid)
            ["a"; "b"; "RESPONSE: yes"] [] []))
    = Ok (upd_reflection "" "") /\
  current_instruction (action_expert (agent (snd (reflection_node init_gstate
         (mkWorld (with_reflection (fun r => mkReflection (r_chat r)
                     ["Open the text editor"; "Type hello"] 0) agent_mid)
            ["a"; "b"; "RESPONSE: yes"] [] []))))) = "Type hello".
Proof.
  assert (Hv : cursor_valid (reflection_expert (agent
             (mkWorld (with_reflection (fun r => mkReflection (r_chat r)
                         ["Open the text editor"; "Type hello"] 0) agent_mid)
                ["a"; "b"; "RESPONSE: yes"] [] []))))
    by (unfold cursor_valid; cbn; lia).
  destruct (reflection_node_success init_gstate
             (mkWorld (with_reflection (fun r => mkReflection (r_chat r)
                         ["Open the text editor"; "Type hello"] 0) agent_mid)
                ["a"; "b"; "RESPONSE: yes"] [] [])
             "a" "b" "RESPONSE: yes" "yes" [] Hv eq_refl eq_refl eq_refl) as [_ [H1 [_ H3]]].
  split; [exact H1|exact H3].
Defined.



(** X: the planning node never sets the done flag: whenever it returns
    normally, the update it returns is the identity. *)
Theorem planning_node_never_sets_done (st : GState) (w : World) (u : update) :
  fst (planning_node st w) = Ok u -> forall g, u g = g.
Proof. intros E. exact (RetFacts.planning_node_identity st w u E). Qed.

Lemma planning_node_never_sets_done_witness :
  fst (planning_node init_gstate world_first_call) = Ok (fun g => g) /\
  forall g, (fun g : GState => g) g = g.
Proof.
  split; [reflexivity|].
  exact (planning_node_never_sets_done init_gstate world_first_call (fun g => g) eq_refl).
Defined.

(** X: the graph returns normally only when it is invoked on a step
    state whose done flag is already set, and then the state it returns
    is done with the action "done"; on every state that is not done it
    raises. *)
Theorem graph_returns_only_when_done (st st' : GState) (w : World) :
  fst (graph_invoke st w) = Ok st' ->
  done st = true /\ done st' = true /\ osworld_action st' = OAStr "done".
Proof. intros E. exact (RetFacts.graph_invoke_done st w st' E). Qed.

Lemma graph_returns_only_when_done_witness :
  fst (graph_invoke (mkGState "" "" (OAStr "") true) world_first_call)
    = Ok (mkGState "" "" (OAStr "done") true) /\
  done (mkGState "" "" (OAStr "") true) = true.
Proof.
  split; [reflexivity|].
  exact (proj1 (graph_returns_only_when_done (mkGState "" "" (OAStr "") true)
                  (mkGState "" "" (OAStr "done") true) world_first_call eq_refl)).
Defined.


(** X: [predict] never consults the oracle or runs the graph: it makes at
    most one request to the perception backend, and besides incrementing
    the step counter it changes only the perception expert's fields; the
    main task, the first-iteration and sleep flags, the graph state and
    the coordinators are left as they were. *)
Theorem predict_frame (i : string) (o : option string) (w : World) :
  oracle (snd (predict i o w)) = oracle w /\
  (trace (snd (predict i o w)) = trace w \/
   trace (snd (predict i o w)) = (trace w ++ [EvPerception])%list) /\
  agent (snd (predict i o w)) =
    with_perception (fun _ => perception_expert (agent (snd (predict i o w))))
      (with_trajectory_length (trajectory_length (agent w) + 1) (agent w)).
Proof. exact (RetFacts.predict_frame_agent i o w). Qed.

(** X: after [_process_new_screenshot], [predict] can only return the
    sleep command ("Task completed", ["time.sleep(1)"]) or the DONE
    sentinel: when the graph returns normally its state is done with the
    action "done", so no command list generated by the action expert is
    ever returned. *)
Theorem predict_after_perception_results (i : string) (w : World) (r : string * list string) :
  fst (predict_after_perception i w) = Ok r ->
  r = ("Task completed", ["time.sleep(1)"]) \/ r = ("Task completed", ["DONE"]).
Proof.
  intros E. refine (_ w r E).
  unfold predict_after_perception.
  apply (RetFacts.returns_only_bind (fun _ => True)); [apply RetFacts.returns_only_true|intros a _].
  apply (RetFacts.returns_only_bind (fun _ => True)); [apply RetFacts.returns_only_true|intros _ _].
  apply (RetFacts.returns_only_bind (fun _ => True)); [apply RetFacts.returns_only_true|intros a' _].
  destruct (sleep a').
  - apply (RetFacts.returns_only_bind (fun _ => True)); [apply RetFacts.returns_only_true|intros _ _].
    apply RetFacts.returns_only_ret. left. reflexivity.
  - apply (RetFacts.returns_only_bind (fun _ => True)); [apply RetFacts.returns_only_true|intros _ _].
    apply (RetFacts.returns_only_bind (fun _ => True)); [apply RetFacts.returns_only_true|intros gs _].
    apply (RetFacts.returns_only_bind
             (fun st' => done gs = true /\ done st' = true /\ osworld_action st' = OAStr "done"));
      [apply RetFacts.graph_invoke_done|intros fs [_ [Hd Ho]]].
    apply (RetFacts.returns_only_bind (fun _ => True)); [apply RetFacts.returns_only_true|intros _ _].
    cbv zeta. rewrite Hd, Ho. cbn. apply RetFacts.returns_only_ret. right. reflexivity.
Qed.

Lemma predict_after_perception_results_witness :
  fst (predict_after_perception "Open a text editor and type 'hello'"
         (mkWorld (with_sleep true agent_mid) [] [] []))
    = Ok ("Task completed", ["time.sleep(1)"]).
Proof.
  assert (E : fst (predict_after_perception "Open a text editor and type 'hello'"
                     (mkWorld (with_sleep true agent_mid) [] [] []))
              = Ok ("Task completed", ["time.sleep(1)"])) by reflexivity.
  destruct (predict_after_perception_results "Open a text editor and type 'hello'"
              (mkWorld (with_sleep true agent_mid) [] [] []) _ E) as [H|H];
    [exact E|discriminate H].
Defined.

(** X: over any sequence of [predict] calls the oracle is never
    consulted, and the main task, the first-iteration and sleep flags,
    the graph state and the planning, action and reflection experts
    (their chats included) stay exactly as they were; only the step
    counter and the perception expert change. *)
Theorem run_predicts_keeps_coordinators (calls : list (string * option string)) (w : World) :
  oracle (run_predicts calls w) = oracle w /\
  main_task (agent (run_predicts calls w)) = main_task (agent w) /\
  first_iteration (agent (run_predicts calls w)) = first_iteration (agent w) /\
  sleep (agent (run_predicts calls w)) = sleep (agent w) /\
  graph_state (agent (run_predicts calls w)) = graph_state (agent w) /\
  planning_expert (agent (run_predicts calls w)) = planning_expert (agent w) /\
  action_expert (agent (run_predicts calls w)) = action_expert (agent w) /\
  reflection_expert (agent (run_predicts calls w)) = reflection_expert (agent w).
Proof.
  revert w; induction calls as [|[i o] rest IH]; intros w; [repeat split|].
  change (run_predicts ((i, o) :: rest) w) with (run_predicts rest (snd (predict i o w))).
  destruct (IH (snd (predict i o w))) as (H1 & H2 & H3 & H4 & H5 & H6 & H7 & H8).
  destruct (RetFacts.predict_frame_agent i o w) as (F1 & _ & F3).
  rewrite H1, H2, H3, H4, H5, H6, H7, H8, F1, F3. repeat split.
Qed.

End Extras.
